(** * Coverage Gridworld hooks: observation encoders and reward shapers

    A shallow embedding of [Code/coverage-gridworld/coverage_gridworld/custom.py]:
    the two observation encoders ([global_observation], [local_observation]),
    the three reward policies ([reward_basic], [reward_time_pressure],
    [reward_proximity]) and the hooks the environment calls ([observation],
    [reward]), together with the module globals they read and write.

    Python values are modelled as follows.
    - [int] is [Z]; [//] and [%] by the positive constant 10 are [Z.div] and
      [Z.modulo] (both floor, as in Python).
    - [float] is IEEE binary64, Rocq's primitive [float]; [+=] and [-=] are
      [PrimFloat.add] and [PrimFloat.sub].
    - a [numpy] array of dtype [uint8] with three axes is a record of its
      shape and its cells as nested lists (rows, columns, channels).
    - the [info] dict is a record with one optional field per key the module
      reads; an absent key raises [KeyError] at the subscript, as in Python.
    - exceptions are a [result] type; the module globals are threaded through
      the hooks as explicit state, and an exception leaves the writes made
      before it in place.
    - the repository does not pin numpy, and the conversion of an integer
      outside [0,255] to [uint8] differs between numpy versions; the
      embedding takes the behaviour as a parameter ([np.int_cast]) and every
      statement that depends on it holds for both. *)

From Stdlib Require Import ZArith Floats.PrimFloat.
From stdpp Require Import base option list strings.

Set Warnings "-inexact-float".

Local Open Scope Z_scope.

(** ** Exceptions *)

Inductive exn : Type :=
| KeyError (key : string)
| ValueError
| OverflowError.

Inductive result (A : Type) : Type :=
| Ok (a : A)
| Raise (e : exn).
Arguments Ok {A} a.
Arguments Raise {A} e.

#[global] Instance result_ret : MRet result := λ A, Ok.
#[global] Instance result_bind : MBind result :=
  λ A B f m, match m with Ok a => f a | Raise e => Raise e end.

Definition is_ok {A} (r : result A) : bool :=
  match r with Ok _ => true | Raise _ => false end.

(** ** The part of numpy the module uses *)

Module np.

(** A three-axis [uint8] array: [shape] is kept next to the cells because a
    slice with no rows still has a column and a channel extent, which
    broadcasting inspects. *)
Record ndarray : Type := mk_ndarray {
  shape : nat * nat * nat;
  cells : list (list (list Z))
}.

Definition has_shape (d0 d1 d2 : nat) (c : list (list (list Z))) : Prop :=
  length c = d0 ∧
  Forall (λ row, length row = d1 ∧ Forall (λ px : list Z, length px = d2) row) c.

Definition wf (a : ndarray) : Prop :=
  has_shape (shape a).1.1 (shape a).1.2 (shape a).2 (cells a).

#[global] Instance has_shape_dec d0 d1 d2 c : Decision (has_shape d0 d1 d2 c).
Proof. unfold has_shape. apply _. Defined.

#[global] Instance wf_dec a : Decision (wf a).
Proof. unfold wf. apply _. Defined.

(** [a[r][c][ch]] for indices inside the array. *)
Definition item (a : ndarray) (r c ch : nat) : option Z :=
  match cells a !! r with
  | Some row => match row !! c with Some px => px !! ch | None => None end
  | None => None
  end.

(** [np.zeros((d0, d1, d2), dtype=np.uint8)] *)
Definition zeros (d0 d1 d2 : nat) : ndarray :=
  {| shape := (d0, d1, d2);
     cells := replicate d0 (replicate d1 (replicate d2 0)) |}.

(** [a.flatten()]: C order, the last axis varies fastest. *)
Definition flatten (a : ndarray) : list Z := mjoin (mjoin (cells a)).

(** [v.reshape((d0, d1, d2))] of a flat vector. *)
Definition reshape (v : list Z) (d0 d1 d2 : nat) : result ndarray :=
  if (length v =? d0 * d1 * d2)%nat then
    Ok {| shape := (d0, d1, d2);
          cells := list.reshape (replicate d0 d1)
                     (list.reshape (replicate (d0 * d1) d2) v) |}
  else Raise ValueError.

(** [slice(start, stop).indices(len)]: a negative bound counts from the
    end, and both bounds are clipped to [0, len]. *)
Definition slice_index (len : nat) (i : Z) : nat :=
  Z.to_nat (if i <? 0 then Z.max 0 (i + Z.of_nat len)
            else Z.min i (Z.of_nat len)).

Definition slice_len (len : nat) (start stop : Z) : nat :=
  (slice_index len stop - slice_index len start)%nat.

(** [l[start:stop]] *)
Definition slice {A} (start stop : Z) (l : list A) : list A :=
  take (slice_len (length l) start stop) (drop (slice_index (length l) start) l).

(** [a[r0:r1, c0:c1, :]] *)
Definition getitem_block (a : ndarray) (r0 r1 c0 c1 : Z) : ndarray :=
  {| shape := (slice_len (shape a).1.1 r0 r1, slice_len (shape a).1.2 c0 c1,
               (shape a).2);
     cells := slice c0 c1 <$> slice r0 r1 (cells a) |}.

(** Broadcasting of a source axis of extent [s] to a target axis of extent
    [t]: equal extents, or a source extent of 1 that is repeated. *)
Definition broadcastable (s t : nat) : bool := (s =? t)%nat || (s =? 1)%nat.

Definition bidx (s i : nat) : nat := if (s =? 1)%nat then 0%nat else i.

(** The cells after writing [src] over rows [rs, re) and columns [cs, ce)
    of [c], every channel, a source axis of extent 1 being repeated. (A
    source whose cells agree with its shape has every cell that is read once
    the shapes broadcast; [default] only makes the function total.) *)
Definition assigned_cells (rs re cs ce : nat) (src : ndarray)
  (c : list (list (list Z))) : list (list (list Z)) :=
  imap (λ i row,
    if (rs <=? i)%nat && (i <? re)%nat then
      imap (λ j px,
        if (cs <=? j)%nat && (j <? ce)%nat then
          imap (λ ch old,
            default old
              (item src (bidx (shape src).1.1 (i - rs))
                 (bidx (shape src).1.2 (j - cs))
                 (bidx (shape src).2 ch))) px
        else px) row
    else row) c.

(** [a[r0:r1, c0:c1, :] = src], returning the updated array; [ValueError]
    when the shape of [src] does not broadcast to the shape of the block. *)
Definition setitem_block (a : ndarray) (r0 r1 c0 c1 : Z) (src : ndarray)
  : result ndarray :=
  let rs := slice_index (shape a).1.1 r0 in
  let re := slice_index (shape a).1.1 r1 in
  let cs := slice_index (shape a).1.2 c0 in
  let ce := slice_index (shape a).1.2 c1 in
  if broadcastable (shape src).1.1 (re - rs)
     && broadcastable (shape src).1.2 (ce - cs)
     && broadcastable (shape src).2 (shape a).2
  then Ok {| shape := shape a;
             cells := assigned_cells rs re cs ce src (cells a) |}
  else Raise ValueError.

(** What [np.array([v], dtype=np.uint8)] does with an integer outside
    [0,255]: it keeps the low eight bits ([cast_wraps]: numpy before 2.0, and
    numpy integer scalars in every version), or it raises [OverflowError]
    ([cast_raises]: a Python [int] under numpy 2.0 or later). In neither
    case is the value saturated. *)
Inductive int_cast : Type := cast_wraps | cast_raises.

(** Conversion of one integer to [uint8]. *)
Definition uint8 (cast : int_cast) (v : Z) : result Z :=
  if (0 <=? v) && (v <=? 255) then Ok v
  else match cast with
       | cast_wraps => Ok (v mod 256)
       | cast_raises => Raise OverflowError
       end.

(** [np.array([v], dtype=np.uint8)] *)
Definition array1_uint8 (cast : int_cast) (v : Z) : result (list Z) :=
  u ← uint8 cast v; mret [u].

End np.

(** ** The [info] record of a step *)

Module Enemy.
Record t : Type := mk { x : Z; y : Z }.
End Enemy.

(** The step information the environment produces, with every field present. *)
Record StepInfo : Type := mk_StepInfo {
  si_agent_pos : Z;
  si_steps_remaining : Z;
  si_cells_remaining : Z;
  si_new_cell_covered : bool;
  si_game_over : bool;
  si_enemies : list Enemy.t
}.

(** The [info] dict as the hooks receive it: each key the module reads may be
    absent. *)
Record info_dict : Type := mk_info {
  agent_pos : option Z;
  steps_remaining : option Z;
  cells_remaining : option Z;
  new_cell_covered : option bool;
  game_over : option bool;
  enemies : option (list Enemy.t)
}.

Definition to_dict (s : StepInfo) : info_dict :=
  {| agent_pos := Some (si_agent_pos s);
     steps_remaining := Some (si_steps_remaining s);
     cells_remaining := Some (si_cells_remaining s);
     new_cell_covered := Some (si_new_cell_covered s);
     game_over := Some (si_game_over s);
     enemies := Some (si_enemies s) |}.

(** [info[key]]: the value under [key], or [KeyError]. *)
Definition getitem {A} (field : option A) (key : string) : result A :=
  match field with
  | Some v => Ok v
  | None => Raise (KeyError key)
  end.

(** ** custom.py: module globals *)

Record globals : Type := mk_globals {
  CURRENT_OBS_MODE : string;
  CURRENT_REWARD_MODE : string;
  LAST_AGENT_POS : option Z;
  LAST_INFO : option info_dict
}.

(** The values the module assigns when it is imported. *)
Definition initial_globals : globals :=
  {| CURRENT_OBS_MODE := "global";
     CURRENT_REWARD_MODE := "basic";
     LAST_AGENT_POS := None;
     LAST_INFO := None |}.

Definition set_CURRENT_OBS_MODE (v : string) (g : globals) : globals :=
  {| CURRENT_OBS_MODE := v;
     CURRENT_REWARD_MODE := CURRENT_REWARD_MODE g;
     LAST_AGENT_POS := LAST_AGENT_POS g;
     LAST_INFO := LAST_INFO g |}.

Definition set_CURRENT_REWARD_MODE (v : string) (g : globals) : globals :=
  {| CURRENT_OBS_MODE := CURRENT_OBS_MODE g;
     CURRENT_REWARD_MODE := v;
     LAST_AGENT_POS := LAST_AGENT_POS g;
     LAST_INFO := LAST_INFO g |}.

Definition set_LAST_AGENT_POS (v : option Z) (g : globals) : globals :=
  {| CURRENT_OBS_MODE := CURRENT_OBS_MODE g;
     CURRENT_REWARD_MODE := CURRENT_REWARD_MODE g;
     LAST_AGENT_POS := v;
     LAST_INFO := LAST_INFO g |}.

Definition set_LAST_INFO (v : option info_dict) (g : globals) : globals :=
  {| CURRENT_OBS_MODE := CURRENT_OBS_MODE g;
     CURRENT_REWARD_MODE := CURRENT_REWARD_MODE g;
     LAST_AGENT_POS := LAST_AGENT_POS g;
     LAST_INFO := v |}.

(** A computation that reads and writes the globals and may raise; the
    globals it returns are those in force when it returned or raised. *)
Definition M (A : Type) : Type := globals → result A * globals.

#[global] Instance M_ret : MRet M := λ A a g, (Ok a, g).
#[global] Instance M_bind : MBind M :=
  λ A B f m g,
    match m g with
    | (Ok a, g') => f a g'
    | (Raise e, g') => (Raise e, g')
    end.

Definition lift {A} (r : result A) : M A := λ g, (r, g).
Definition gets {A} (f : globals → A) : M A := λ g, (Ok (f g), g).
Definition modify (f : globals → globals) : M unit := λ g, (Ok tt, f g).

(** ** custom.py: observation spaces and encoders *)

(** [gym.spaces.Box(low, high, shape=(n,), dtype=np.uint8)] *)
Record Box : Type := mk_Box { low : Z; high : Z; box_shape : nat }.

Definition global_observation_space : Box :=
  {| low := 0; high := 255; box_shape := 300 |}.

(** [global_observation(grid)] *)
Definition global_observation (grid : np.ndarray) : list Z := np.flatten grid.

Definition local_observation_space : Box :=
  {| low := 0; high := 255; box_shape := 77 |}.

(** ** The earlier variant of the module

    [coverage-gridworld/coverage_gridworld/custom.py], the variant outside
    [Code/]: the same two encoders and [reward_basic], reward policies
    without the stuck and the proximity penalty, and hooks that keep no
    cache. Its only globals are the two mode flags. *)

Module Legacy.

Record globals : Type := mk_globals {
  CURRENT_OBS_MODE : string;
  CURRENT_REWARD_MODE : string
}.

Definition initial_globals : globals :=
  {| CURRENT_OBS_MODE := "global"; CURRENT_REWARD_MODE := "basic" |}.

Definition global_observation_space : Box :=
  {| low := 0; high := 255; box_shape := 300 |}.

(** [global_observation(grid)] *)
Definition global_observation (grid : np.ndarray) : list Z := np.flatten grid.

Definition local_observation_space : Box :=
  {| low := 0; high := 255; box_shape := 77 |}.

(** [reward_basic(info)] *)
Definition reward_basic (info : info_dict) : result float :=
  let rew := 0.0%float in
  covered ← getitem (new_cell_covered info) "new_cell_covered";
  let rew := if covered : bool then (rew + 1.0)%float else rew in
  over ← getitem (game_over info) "game_over";
  let rew := if over : bool then (rew - 1.0)%float else rew in
  mret rew.

(** [reward_time_pressure(info)] *)
Definition reward_time_pressure (info : info_dict) : result float :=
  let rew := 0.0%float in
  covered ← getitem (new_cell_covered info) "new_cell_covered";
  let rew := if covered : bool then (rew + 1.0)%float else rew in
  let rew := (rew - 0.01)%float in
  over ← getitem (game_over info) "game_over";
  let rew := if over : bool then (rew - 5.0)%float else rew in
  mret rew.

(** [reward_proximity(info)] *)
Definition reward_proximity (info : info_dict) : result float :=
  let rew := 0.0%float in
  covered ← getitem (new_cell_covered info) "new_cell_covered";
  let rew := if covered : bool then (rew + 1.0)%float else rew in
  let rew := (rew - 0.01)%float in
  over ← getitem (game_over info) "game_over";
  let rew := if over : bool then (rew - 5.0)%float else rew in
  mret rew.

(** [observation_space(env)] *)
Definition observation_space (g : globals) : Box :=
  if String.eqb (CURRENT_OBS_MODE g) "local" then local_observation_space
  else global_observation_space.

(** [observation(grid)]: both branches flatten the whole grid. *)
Definition observation (grid : np.ndarray) (g : globals) : list Z :=
  if String.eqb (CURRENT_OBS_MODE g) "local" then np.flatten grid
  else np.flatten grid.

(** [reward(info)] *)
Definition reward (info : info_dict) (g : globals) : result float :=
  if String.eqb (CURRENT_REWARD_MODE g) "basic" then reward_basic info
  else if String.eqb (CURRENT_REWARD_MODE g) "time_pressure"
       then reward_time_pressure info
       else reward_proximity info.

End Legacy.

(** ** custom.py, continued

    From here on [cast] is the behaviour of the [uint8] conversion in the
    numpy that is installed. *)

Section numpy_cast.
Context (cast : np.int_cast).

(** [local_observation(grid, info)] *)
Definition local_observation (grid : np.ndarray) (info : info_dict)
  : result (list Z) :=
  let grid_size := 10 in
  agent_pos ← getitem (agent_pos info) "agent_pos";
  let agent_row := agent_pos / grid_size in
  let agent_col := agent_pos mod grid_size in
  let patch_radius := 2 in
  let row_min := Z.max 0 (agent_row - patch_radius) in
  let row_max := Z.min grid_size (agent_row + patch_radius + 1) in
  let col_min := Z.max 0 (agent_col - patch_radius) in
  let col_max := Z.min grid_size (agent_col + patch_radius + 1) in
  let local_patch := np.getitem_block grid row_min row_max col_min col_max in
  let padded_patch := np.zeros 5 5 3 in
  let h := row_max - row_min in
  let w := col_max - col_min in
  padded_patch ← np.setitem_block padded_patch 0 h 0 w local_patch;
  let flattened_patch := np.flatten padded_patch in
  steps_remaining ← getitem (steps_remaining info) "steps_remaining";
  steps_remaining ← np.array1_uint8 cast steps_remaining;
  cells_remaining ← getitem (cells_remaining info) "cells_remaining";
  cells_remaining ← np.array1_uint8 cast cells_remaining;
  let local_obs := flattened_patch ++ steps_remaining ++ cells_remaining in
  mret local_obs.

(** ** custom.py: reward functions *)

(** [reward_basic(info)] *)
Definition reward_basic (info : info_dict) : result float :=
  let rew := 0.0%float in
  covered ← getitem (new_cell_covered info) "new_cell_covered";
  let rew := if covered : bool then (rew + 1.0)%float else rew in
  over ← getitem (game_over info) "game_over";
  let rew := if over : bool then (rew - 1.0)%float else rew in
  mret rew.

(** [reward_time_pressure(info)] *)
Definition reward_time_pressure (info : info_dict) : M float :=
  let rew := 0.0%float in
  covered ← lift (getitem (new_cell_covered info) "new_cell_covered");
  let rew := if covered : bool then (rew + 1.0)%float else rew in
  let rew := (rew - 0.01)%float in
  over ← lift (getitem (game_over info) "game_over");
  let rew := if over : bool then (rew - 5.0)%float else rew in
  current_pos ← lift (getitem (agent_pos info) "agent_pos");
  last ← gets LAST_AGENT_POS;
  let rew :=
    match last with
    | Some last_pos => if current_pos =? last_pos then (rew - 0.05)%float else rew
    | None => rew
    end in
  _ ← modify (set_LAST_AGENT_POS (Some current_pos));
  mret rew.

(** The body of the [for enemy in info["enemies"]] loop of
    [reward_proximity]. *)
Definition proximity_step (agent_x agent_y : Z) (rew : float) (enemy : Enemy.t)
  : float :=
  let ex := Enemy.x enemy in
  let ey := Enemy.y enemy in
  let dist := Z.abs (agent_x - ex) + Z.abs (agent_y - ey) in
  if dist <? 3 then (rew - 0.1)%float else rew.

(** [reward_proximity(info)] *)
Definition reward_proximity (info : info_dict) : result float :=
  let rew := 0.0%float in
  covered ← getitem (new_cell_covered info) "new_cell_covered";
  let rew := if covered : bool then (rew + 1.0)%float else rew in
  let rew := (rew - 0.01)%float in
  agent_pos ← getitem (agent_pos info) "agent_pos";
  let agent_x := agent_pos mod 10 in
  let agent_y := agent_pos / 10 in
  enemies ← getitem (enemies info) "enemies";
  let rew := foldl (proximity_step agent_x agent_y) rew enemies in
  over ← getitem (game_over info) "game_over";
  let rew := if over : bool then (rew - 5.0)%float else rew in
  mret rew.

(** ** custom.py: the hooks the environment calls *)

(** [observation_space(env)] *)
Definition observation_space : M Box :=
  mode ← gets CURRENT_OBS_MODE;
  if String.eqb mode "local" then mret local_observation_space
  else mret global_observation_space.

(** [observation(grid)] *)
Definition observation (grid : np.ndarray) : M (list Z) :=
  mode ← gets CURRENT_OBS_MODE;
  if String.eqb mode "local" then
    last ← gets LAST_INFO;
    match last with
    | Some info => lift (local_observation grid info)
    | None => mret (np.flatten grid)
    end
  else mret (np.flatten grid).

(** [reward(info)] *)
Definition reward (info : info_dict) : M float :=
  _ ← modify (set_LAST_INFO (Some info));
  mode ← gets CURRENT_REWARD_MODE;
  if String.eqb mode "basic" then lift (reward_basic info)
  else if String.eqb mode "time_pressure" then reward_time_pressure info
  else lift (reward_proximity info).

(** ** Vocabulary of the statements and sample inputs *)

(** A sample grid whose cell [(r, c, ch)] holds [(30 r + 3 c + ch) mod 256]. *)
Definition sample_grid : np.ndarray :=
  {| np.shape := (10%nat, 10%nat, 3%nat);
     np.cells :=
       (λ r, (λ c, (λ ch, Z.of_nat ((30 * r + 3 * c + ch) mod 256))
                     <$> seq 0 3) <$> seq 0 10) <$> seq 0 10 |}.

Ltac run_hook :=
  unfold mbind, mret, M_bind, M_ret, result_bind, result_ret,
    lift, gets, modify, getitem; simpl.

(** The signed contribution of an event that may or may not apply. *)
Definition term (applies : bool) (amount : float) : float :=
  if applies then amount else 0.0%float.

(** Whether the stuck penalty applies: a previous position is recorded and
    the current one equals it. *)
Definition stuck (g : globals) (p : Z) : bool :=
  bool_decide (LAST_AGENT_POS g = Some p).

(** What [reward_time_pressure] returns on a complete info record, as a sum
    of signed terms taken in the order the function applies them. *)
Definition time_pressure_sum (covered over is_stuck : bool) : float :=
  (0.0 + term covered 1.0 + (-0.01) + term over (-5.0) + term is_stuck (-0.05))%float.

(** A step in which nothing happens: no new cell, no detection, no enemy. *)
Definition quiet_step (p : Z) : StepInfo :=
  {| si_agent_pos := p; si_steps_remaining := 100; si_cells_remaining := 40;
     si_new_cell_covered := false; si_game_over := false; si_enemies := [] |}.

(** Manhattan distance between the agent at flattened position [p] (column
    [p mod 10], row [p / 10]) and an enemy. *)
Definition manhattan (p : Z) (e : Enemy.t) : Z :=
  Z.abs (p mod 10 - Enemy.x e) + Z.abs (p / 10 - Enemy.y e).

(** Number of enemies at distance 0, 1 or 2. *)
Definition near_count (p : Z) (en : list Enemy.t) : nat :=
  length (filter (λ e, manhattan p e < 3) en).

(** The total of the proximity policy: the covered bonus and the step cost,
    then 0.1 taken off once per near enemy, then the game-over penalty. *)
Definition proximity_total (covered : bool) (n : nat) (over : bool) : float :=
  let after_enemies :=
    Nat.iter n (λ r, r - 0.1)%float (0.0 + term covered 1.0 + (-0.01))%float in
  if over then (after_enemies - 5.0)%float else after_enemies.

(** Agent at row 5, column 5; one enemy one cell away, one five cells away. *)
Definition two_enemies_step : StepInfo :=
  {| si_agent_pos := 55; si_steps_remaining := 100; si_cells_remaining := 40;
     si_new_cell_covered := true; si_game_over := false;
     si_enemies := [Enemy.mk 5 6; Enemy.mk 5 0] |}.

(** The clipped window of radius 2 around flattened position [p]. *)
Definition row_min (p : Z) : Z := Z.max 0 (p / 10 - 2).
Definition row_max (p : Z) : Z := Z.min 10 (p / 10 + 3).
Definition col_min (p : Z) : Z := Z.max 0 (p mod 10 - 2).
Definition col_max (p : Z) : Z := Z.min 10 (p mod 10 + 3).

(** The content of cell [(i, j, ch)] of the 5x5x3 buffer: the window copied
    to the top-left corner, zero elsewhere. *)
Definition patch_cell (grid : np.ndarray) (p : Z) (i j ch : nat) : option Z :=
  if (i <? Z.to_nat (row_max p - row_min p))%nat
     && (j <? Z.to_nat (col_max p - col_min p))%nat
  then np.item grid (Z.to_nat (row_min p) + i) (Z.to_nat (col_min p) + j) ch
  else Some 0.

(** The buffer [padded_patch] as [local_observation] has it after the block
    assignment, for an agent at flattened position [p]. *)
Definition padded_patch (grid : np.ndarray) (p : Z) : result np.ndarray :=
  np.setitem_block (np.zeros 5 5 3) 0 (row_max p - row_min p)
    0 (col_max p - col_min p)
    (np.getitem_block grid (row_min p) (row_max p) (col_min p) (col_max p)).

(** Saturation of an integer to the range of an unsigned byte. *)
Definition clamp_uint8 (v : Z) : Z := Z.max 0 (Z.min 255 v).

(** A step with 300 steps remaining, as at the start of a long episode. *)
Definition long_episode_step : StepInfo :=
  {| si_agent_pos := 0; si_steps_remaining := 300; si_cells_remaining := 40;
     si_new_cell_covered := false; si_game_over := false; si_enemies := [] |}.

(** Whether the assignment of the window into the buffer passes numpy's
    shape check, for a grid of shape (10,10,3). *)
Definition patch_fits (p : Z) : bool :=
  np.broadcastable (np.slice_len 10 (row_min p) (row_max p))
    (np.slice_index 5 (row_max p - row_min p) - np.slice_index 5 0)
  && np.broadcastable (np.slice_len 10 (col_min p) (col_max p))
       (np.slice_index 5 (col_max p - col_min p) - np.slice_index 5 0)
  && np.broadcastable 3 3.


(** A record that lacks the "agent_pos" key. *)
Definition info_without_agent_pos : info_dict :=
  {| agent_pos := None; steps_remaining := Some 100; cells_remaining := Some 40;
     new_cell_covered := Some false; game_over := Some false;
     enemies := Some [] |}.

(** What can happen to the module after import: a call of one of its
    functions, or a driver script assigning one of the two mode flags. *)
Inductive op : Type :=
| call_global_observation_space
| call_global_observation (grid : np.ndarray)
| call_local_observation_space
| call_local_observation (grid : np.ndarray) (info : info_dict)
| call_reward_basic (info : info_dict)
| call_reward_time_pressure (info : info_dict)
| call_reward_proximity (info : info_dict)
| call_observation_space
| call_observation (grid : np.ndarray)
| call_reward (info : info_dict)
| assign_CURRENT_OBS_MODE (v : string)
| assign_CURRENT_REWARD_MODE (v : string).

(** The globals after an operation, whether it returned or raised. *)
Definition exec (o : op) (g : globals) : globals :=
  match o with
  | call_global_observation_space => g
  | call_global_observation _ => g
  | call_local_observation_space => g
  | call_local_observation _ _ => g
  | call_reward_basic _ => g
  | call_reward_time_pressure info => (reward_time_pressure info g).2
  | call_reward_proximity _ => g
  | call_observation_space => (observation_space g).2
  | call_observation grid => (observation grid g).2
  | call_reward info => (reward info g).2
  | assign_CURRENT_OBS_MODE v => set_CURRENT_OBS_MODE v g
  | assign_CURRENT_REWARD_MODE v => set_CURRENT_REWARD_MODE v g
  end.

Definition run (ops : list op) (g : globals) : globals :=
  foldl (λ g o, exec o g) g ops.

Definition is_reward_call (o : op) : bool :=
  match o with call_reward _ => true | _ => false end.

(** [observation] takes the fallback branch: local mode with an empty
    cache. *)
Definition falls_back (g : globals) : bool :=
  String.eqb (CURRENT_OBS_MODE g) "local"
  && match LAST_INFO g with None => true | Some _ => false end.

(** ** Vocabulary of the further properties *)

(** The range of an unsigned byte, which is also the range the two [Box]
    spaces declare. *)
Definition is_uint8 (v : Z) : Prop := 0 ≤ v ≤ 255.

#[global] Instance is_uint8_dec v : Decision (is_uint8 v).
Proof. unfold is_uint8. apply _. Defined.

(** Every cell of the array is an unsigned byte. *)
Definition uint8_cells (a : np.ndarray) : Prop :=
  Forall (Forall (Forall is_uint8)) (np.cells a).

#[global] Instance uint8_cells_dec a : Decision (uint8_cells a).
Proof. unfold uint8_cells. apply _. Defined.

(** A grid that agrees with [sample_grid] on rows and columns 0..2 and is
    zero elsewhere. *)
Definition corner_only_grid : np.ndarray :=
  {| np.shape := (10%nat, 10%nat, 3%nat);
     np.cells :=
       (λ r, (λ c, (λ ch, if (r <? 3)%nat && (c <? 3)%nat
                          then Z.of_nat ((30 * r + 3 * c + ch) mod 256) else 0)
                     <$> seq 0 3) <$> seq 0 10) <$> seq 0 10 |}.

(** Calling a hook once per element, in order, until one call raises. *)
Fixpoint calls {A B} (f : A → M B) (xs : list A) : M (list B) :=
  match xs with
  | [] => mret []
  | x :: xs => y ← f x; ys ← calls f xs; mret (y :: ys)
  end.

(** A record with the two flags and nothing else. *)
Definition flags_only_info : info_dict :=
  {| agent_pos := None; steps_remaining := None; cells_remaining := None;
     new_cell_covered := Some true; game_over := Some false; enemies := None |}.

(** * Properties *)

(** ** Lists of equal-length lists *)

Section uniform.
Context {A : Type}.
Implicit Types ls : list (list A).

Lemma length_join_uniform n ls :
  Forall (λ l, length l = n) ls → length (mjoin ls) = (length ls * n)%nat.
Proof.
  intros H. rewrite length_join. by apply sum_list_fmap_same.
Qed.

Lemma lookup_join_uniform n ls (j i : nat) :
  Forall (λ l, length l = n) ls → (i < n)%nat →
  mjoin ls !! (j * n + i)%nat =
  match ls !! j with Some l => l !! i | None => None end.
Proof.
  intros Hn Hi. apply option_eq. intros x.
  rewrite join_lookup_Some_same_length' by done.
  destruct (ls !! j) as [l|]; split.
  - by intros (l' & [= <-] & ?).
  - by exists l.
  - by intros (l' & ? & _).
  - done.
Qed.

Lemma reshape_join_uniform n ls :
  Forall (λ l, length l = n) ls →
  list.reshape (replicate (length ls) n) (mjoin ls) = ls.
Proof.
  induction 1 as [|l ls Hl _ IH]; [done|]. csimpl.
  rewrite take_app_length' by done.
  rewrite drop_app_length' by done.
  by rewrite IH.
Qed.
End uniform.

(** ** Shape facts *)

Lemma has_shape_pixels d0 d1 d2 c :
  np.has_shape d0 d1 d2 c →
  Forall (λ row : list (list Z), length row = d1) c ∧
  Forall (λ px : list Z, length px = d2) (mjoin c) ∧
  length (mjoin c) = (d0 * d1)%nat.
Proof.
  intros [Hlen Hrows]. split_and!.
  - eapply Forall_impl; [exact Hrows|]. by intros ? [? _].
  - apply Forall_join. eapply Forall_impl; [exact Hrows|]. by intros ? [_ ?].
  - rewrite (length_join_uniform d1), Hlen; [done|].
    eapply Forall_impl; [exact Hrows|]. by intros ? [? _].
Qed.

Lemma flatten_length d0 d1 d2 (a : np.ndarray) :
  np.has_shape d0 d1 d2 (np.cells a) →
  length (np.flatten a) = (d0 * d1 * d2)%nat.
Proof.
  intros H. destruct (has_shape_pixels _ _ _ _ H) as (_ & Hpx & Hlen).
  unfold np.flatten. by rewrite (length_join_uniform d2), Hlen.
Qed.

Lemma flatten_lookup d0 d1 d2 (a : np.ndarray) (r c ch : nat) :
  np.has_shape d0 d1 d2 (np.cells a) → (c < d1)%nat → (ch < d2)%nat →
  np.flatten a !! ((r * d1 + c) * d2 + ch)%nat = np.item a r c ch.
Proof.
  intros H Hc Hch. destruct (has_shape_pixels _ _ _ _ H) as (Hrow & Hpx & _).
  unfold np.flatten, np.item.
  rewrite (lookup_join_uniform d2) by done.
  rewrite (lookup_join_uniform d1) by done.
  destruct (np.cells a !! r) as [row|]; [|done]. by destruct (row !! c).
Qed.

Lemma reshape_flatten d0 d1 d2 (a : np.ndarray) :
  np.shape a = (d0, d1, d2) → np.has_shape d0 d1 d2 (np.cells a) →
  np.reshape (np.flatten a) d0 d1 d2 = Ok a.
Proof.
  intros Hs H. destruct (has_shape_pixels _ _ _ _ H) as (Hrow & Hpx & Hlen).
  unfold np.reshape. rewrite (flatten_length d0 d1 d2) by done.
  rewrite Nat.eqb_refl. destruct a as [s cs]; simpl in *. subst s. f_equal. f_equal.
  unfold np.flatten; simpl. rewrite <- Hlen, reshape_join_uniform by done.
  destruct H as [<- _]. by rewrite reshape_join_uniform.
Qed.

(** C2: for a grid of shape (10,10,3), [global_observation] has exactly 300
    elements, element [30 r + 3 c + ch] is the grid cell [(r, c, ch)]
    (row-major, channel-last), and reshaping the result to (10,10,3) gives
    the grid back. *)
Theorem global_observation_flatten_roundtrip (grid : np.ndarray) :
  np.shape grid = (10%nat, 10%nat, 3%nat) → np.wf grid →
  length (global_observation grid) = 300%nat ∧
  (∀ r c ch : nat, (r < 10)%nat → (c < 10)%nat → (ch < 3)%nat →
     global_observation grid !! (30 * r + 3 * c + ch)%nat = np.item grid r c ch) ∧
  np.reshape (global_observation grid) 10 10 3 = Ok grid.
Proof.
  intros Hs Hwf. unfold np.wf in Hwf. rewrite Hs in Hwf. simpl in Hwf.
  unfold global_observation. split_and!.
  - by rewrite (flatten_length 10 10 3).
  - intros r c ch Hr Hc Hch.
    replace (30 * r + 3 * c + ch)%nat with ((r * 10 + c) * 3 + ch)%nat by lia.
    by apply (flatten_lookup 10 10 3).
  - by apply reshape_flatten.
Qed.

Lemma global_observation_flatten_roundtrip_witness :
  np.shape sample_grid = (10%nat, 10%nat, 3%nat) ∧ np.wf sample_grid ∧
  length (global_observation sample_grid) = 300%nat ∧
  global_observation sample_grid !! 299%nat = np.item sample_grid 9 9 2 ∧
  np.reshape (global_observation sample_grid) 10 10 3 = Ok sample_grid.
Proof.
  assert (Hs : np.shape sample_grid = (10%nat, 10%nat, 3%nat)) by reflexivity.
  assert (Hwf : np.wf sample_grid) by (apply (bool_decide_unpack _); vm_compute; exact I).
  destruct (global_observation_flatten_roundtrip sample_grid Hs Hwf) as (Hl & Hi & Hr).
  split_and!; [done|done|done| |done].
  apply (Hi 9%nat 9%nat 2%nat); lia.
Defined.

(** ** Reward policies *)

(** C9: [reward_basic] is the sum of +1.0 when a new cell is covered and
    -1.0 when the game is over, both applied when both hold; covered alone
    gives 1.0 and covered with game over gives 0.0. *)
Theorem reward_basic_additive :
  (∀ s : StepInfo,
     reward_basic (to_dict s) =
       Ok (term (si_new_cell_covered s) 1.0 + term (si_game_over s) (-1.0))%float) ∧
  (∀ p st ce en,
     reward_basic (to_dict (mk_StepInfo p st ce true false en)) = Ok 1.0%float) ∧
  (∀ p st ce en,
     reward_basic (to_dict (mk_StepInfo p st ce true true en)) = Ok 0.0%float).
Proof.
  split_and!.
  - intros [p st ce [] [] en]; reflexivity.
  - reflexivity.
  - reflexivity.
Qed.

Lemma stuck_eqb g p :
  stuck g p =
    match LAST_AGENT_POS g with Some last => p =? last | None => false end.
Proof.
  unfold stuck. destruct (LAST_AGENT_POS g) as [last|].
  - destruct (Z.eqb_spec p last) as [->|Hne].
    + by rewrite bool_decide_eq_true_2.
    + rewrite bool_decide_eq_false_2; [done|]. by intros [= ->].
  - by rewrite bool_decide_eq_false_2.
Qed.

Lemma reward_time_pressure_run (s : StepInfo) (g : globals) :
  reward_time_pressure (to_dict s) g =
    (Ok (time_pressure_sum (si_new_cell_covered s) (si_game_over s)
           (stuck g (si_agent_pos s))),
     set_LAST_AGENT_POS (Some (si_agent_pos s)) g).
Proof.
  rewrite stuck_eqb. destruct s as [p st ce covered over en].
  unfold reward_time_pressure. run_hook.
  destruct (LAST_AGENT_POS g) as [last|]; [destruct (p =? last)|];
    destruct covered, over; reflexivity.
Qed.

(** C4 (as stated, refuted): after a first call that returns -0.01, the call
    that follows with the same position and flags does not return the
    double -0.06; it returns -0.01 - 0.05 = -0.060000000000000005. *)
Lemma reward_time_pressure_second_call_not_minus_0_06 :
  let '(r1, g1) := reward_time_pressure (to_dict (quiet_step 42)) initial_globals in
  let '(r2, g2) := reward_time_pressure (to_dict (quiet_step 42)) g1 in
  r1 = Ok (-0.01)%float ∧
  r2 = Ok (-0.060000000000000005)%float ∧
  r2 ≠ Ok (-0.06)%float.
Proof.
  vm_compute. split_and!; [reflexivity|reflexivity|].
  discriminate.
Qed.

(** C4 (amended): on a complete info record [reward_time_pressure] returns
    +1.0 if a new cell is covered, -0.01 always, -5.0 if the game is over and
    -0.05 exactly when a previous position is recorded and equals the current
    one; the recorded position becomes the current one after every call, the
    first included. A first call with both flags false returns -0.01, and the
    following call at the same position with the same flags returns
    -0.01 - 0.05 in binary64, which is -0.060000000000000005. *)
Theorem reward_time_pressure_terms_and_slot :
  (∀ (s : StepInfo) (g : globals),
     reward_time_pressure (to_dict s) g =
       (Ok (time_pressure_sum (si_new_cell_covered s) (si_game_over s)
              (stuck g (si_agent_pos s))),
        set_LAST_AGENT_POS (Some (si_agent_pos s)) g)) ∧
  (∀ (g : globals) (p : Z),
     stuck g p = true ↔ LAST_AGENT_POS g = Some p) ∧
  (∀ om rm li p st ce en st' ce' en',
     let g0 := mk_globals om rm None li in
     let first := reward_time_pressure (to_dict (mk_StepInfo p st ce false false en)) g0 in
     let second := reward_time_pressure (to_dict (mk_StepInfo p st' ce' false false en')) first.2 in
     first.1 = Ok (-0.01)%float ∧
     LAST_AGENT_POS first.2 = Some p ∧
     second.1 = Ok (-0.01 - 0.05)%float ∧
     (-0.01 - 0.05 = -0.060000000000000005)%float).
Proof.
  split_and!.
  - apply reward_time_pressure_run.
  - intros g p. unfold stuck. apply bool_decide_eq_true.
  - intros om rm li p st ce en st' ce' en'. cbv zeta.
    rewrite !reward_time_pressure_run. cbn [fst snd].
    unfold stuck. cbn [LAST_AGENT_POS set_LAST_AGENT_POS si_agent_pos
      si_new_cell_covered si_game_over].
    rewrite bool_decide_eq_false_2 by done.
    rewrite bool_decide_eq_true_2 by done.
    split_and!; reflexivity.
Qed.

(** ** The proximity policy *)

Lemma foldl_proximity_step (p : Z) (en : list Enemy.t) (rew : float) :
  foldl (proximity_step (p mod 10) (p / 10)) rew en =
    Nat.iter (near_count p en) (λ r, r - 0.1)%float rew.
Proof.
  unfold near_count. revert rew.
  induction en as [|e en IH]; intros rew; [done|].
  cbn [foldl]. rewrite IH, filter_cons. unfold proximity_step.
  fold (manhattan p e). destruct (Z.ltb_spec (manhattan p e) 3) as [Hlt|Hge].
  - rewrite decide_True by done. cbn [length]. by rewrite Nat.iter_succ_r.
  - rewrite decide_False by lia. done.
Qed.

Lemma reward_proximity_run (s : StepInfo) :
  reward_proximity (to_dict s) =
    Ok (proximity_total (si_new_cell_covered s)
          (near_count (si_agent_pos s) (si_enemies s)) (si_game_over s)).
Proof.
  destruct s as [p st ce covered over en].
  unfold reward_proximity, proximity_total. run_hook.
  rewrite foldl_proximity_step.
  destruct covered, over; reflexivity.
Qed.

(** C5: on a complete info record [reward_proximity] returns +1.0 if a new
    cell is covered, -0.01 always, -0.1 once for each enemy at Manhattan
    distance below 3 (no cap), and -5.0 if the game is over; with two enemies
    at distances 1 and 5, a covered cell and no game over, the result is
    1.0 - 0.01 - 0.1 = 0.89. *)
Theorem reward_proximity_terms (s : StepInfo) :
  reward_proximity (to_dict s) =
    Ok (proximity_total (si_new_cell_covered s)
          (near_count (si_agent_pos s) (si_enemies s)) (si_game_over s)) ∧
  (∀ e1 e2 : Enemy.t,
     si_enemies s = [e1; e2] →
     manhattan (si_agent_pos s) e1 = 1 →
     manhattan (si_agent_pos s) e2 = 5 →
     si_new_cell_covered s = true →
     si_game_over s = false →
     reward_proximity (to_dict s) = Ok 0.89%float ∧
     (1.0 - 0.01 - 0.1 = 0.89)%float).
Proof.
  split; [apply reward_proximity_run|].
  intros e1 e2 Hen H1 H5 Hcov Hover.
  rewrite reward_proximity_run, Hen, Hcov, Hover.
  unfold near_count. rewrite !filter_cons, filter_nil.
  rewrite decide_True by lia. rewrite decide_False by lia.
  split; reflexivity.
Qed.

Lemma reward_proximity_terms_witness :
  reward_proximity (to_dict two_enemies_step) = Ok 0.89%float.
Proof.
  destruct (reward_proximity_terms two_enemies_step) as [_ H].
  apply (H (Enemy.mk 5 6) (Enemy.mk 5 0)); reflexivity.
Defined.

(** ** Slices and block assignment *)

Lemma slice_index_in_range (len : nat) (i : Z) :
  0 ≤ i ≤ Z.of_nat len → np.slice_index len i = Z.to_nat i.
Proof.
  intros Hi. unfold np.slice_index.
  destruct (Z.ltb_spec i 0); [lia|]. f_equal. lia.
Qed.

Lemma slice_len_in_range (len : nat) (start stop : Z) :
  0 ≤ start → start ≤ stop → stop ≤ Z.of_nat len →
  np.slice_len len start stop = Z.to_nat (stop - start).
Proof.
  intros. unfold np.slice_len. rewrite !slice_index_in_range by lia. lia.
Qed.

Lemma slice_lookup {A} (l : list A) (start stop : Z) (i : nat) :
  0 ≤ start → start ≤ stop → stop ≤ Z.of_nat (length l) →
  (i < Z.to_nat (stop - start))%nat →
  np.slice start stop l !! i = l !! (Z.to_nat start + i)%nat.
Proof.
  intros ? ? ? Hi. unfold np.slice.
  rewrite slice_len_in_range, slice_index_in_range by lia.
  by rewrite lookup_take_lt, lookup_drop.
Qed.

Lemma has_shape_row d0 d1 d2 c (r : nat) row :
  np.has_shape d0 d1 d2 c → c !! r = Some row →
  length row = d1 ∧ Forall (λ px : list Z, length px = d2) row.
Proof.
  intros [_ Hrows] Hr. by apply (Forall_lookup_1 _ _ _ _ Hrows Hr).
Qed.

Lemma item_is_Some d0 d1 d2 (a : np.ndarray) (r c ch : nat) :
  np.has_shape d0 d1 d2 (np.cells a) →
  (r < d0)%nat → (c < d1)%nat → (ch < d2)%nat →
  is_Some (np.item a r c ch).
Proof.
  intros H Hr Hc Hch. unfold np.item.
  pose proof (proj1 H) as Hd0.
  destruct (lookup_lt_is_Some_2 (np.cells a) r) as [row Hrow]; [lia|].
  rewrite Hrow. destruct (has_shape_row _ _ _ _ _ _ H Hrow) as [Hlen Hpx].
  destruct (lookup_lt_is_Some_2 row c) as [px Hp]; [lia|].
  rewrite Hp. apply lookup_lt_is_Some_2.
  rewrite (Forall_lookup_1 _ _ _ _ Hpx Hp). lia.
Qed.

(** A block read inside the array returns the cells at the shifted indices. *)
Lemma getitem_block_item d0 d1 d2 (a : np.ndarray) (r0 r1 c0 c1 : Z) (i j ch : nat) :
  np.has_shape d0 d1 d2 (np.cells a) →
  0 ≤ r0 → r0 ≤ r1 → r1 ≤ Z.of_nat d0 →
  0 ≤ c0 → c0 ≤ c1 → c1 ≤ Z.of_nat d1 →
  (i < Z.to_nat (r1 - r0))%nat → (j < Z.to_nat (c1 - c0))%nat →
  np.item (np.getitem_block a r0 r1 c0 c1) i j ch =
    np.item a (Z.to_nat r0 + i) (Z.to_nat c0 + j) ch.
Proof.
  intros H ? ? ? ? ? ? Hi Hj. unfold np.item, np.getitem_block. cbn [np.cells].
  rewrite list_lookup_fmap. pose proof (proj1 H) as Hd0.
  rewrite slice_lookup by lia.
  destruct (np.cells a !! (Z.to_nat r0 + i)%nat) as [row|] eqn:Hrow; [|done].
  cbn [fmap option_fmap option_map].
  destruct (has_shape_row _ _ _ _ _ _ H Hrow) as [Hlen _].
  by rewrite slice_lookup by lia.
Qed.

Lemma getitem_block_shape d0 d1 d2 (a : np.ndarray) (r0 r1 c0 c1 : Z) :
  np.shape a = (d0, d1, d2) →
  0 ≤ r0 → r0 ≤ r1 → r1 ≤ Z.of_nat d0 →
  0 ≤ c0 → c0 ≤ c1 → c1 ≤ Z.of_nat d1 →
  np.shape (np.getitem_block a r0 r1 c0 c1) =
    (Z.to_nat (r1 - r0), Z.to_nat (c1 - c0), d2).
Proof.
  intros Hs ? ? ? ? ? ?. unfold np.getitem_block. cbn [np.shape]. rewrite Hs.
  cbn [fst snd]. by rewrite !slice_len_in_range by lia.
Qed.

Lemma bidx_in_block (s i : nat) : (i < s)%nat → np.bidx s i = i.
Proof.
  intros Hi. unfold np.bidx. destruct (Nat.eqb_spec s 1); [lia|done].
Qed.

Lemma assigned_cells_has_shape d0 d1 d2 rs re cs ce src c :
  np.has_shape d0 d1 d2 c →
  np.has_shape d0 d1 d2 (np.assigned_cells rs re cs ce src c).
Proof.
  intros [Hlen Hrows]. split; [by unfold np.assigned_cells; rewrite length_imap|].
  apply Forall_lookup_2. intros i row'. unfold np.assigned_cells.
  rewrite list_lookup_imap. intros Hrow'.
  apply fmap_Some_1 in Hrow' as (row & Hrow & ->).
  destruct (Forall_lookup_1 _ _ _ _ Hrows Hrow) as [Hl Hpx].
  destruct ((rs <=? i)%nat && (i <? re)%nat); [|done].
  split; [by rewrite length_imap|].
  apply Forall_lookup_2. intros j px'. rewrite list_lookup_imap. intros Hpx'.
  apply fmap_Some_1 in Hpx' as (px & Hp & ->).
  pose proof (Forall_lookup_1 _ _ _ _ Hpx Hp) as Hlpx.
  destruct ((cs <=? j)%nat && (j <? ce)%nat); [|done].
  by rewrite length_imap.
Qed.

Lemma assigned_cells_item d0 d1 d2 rs re cs ce src (a : np.ndarray) (i j ch : nat) :
  np.has_shape d0 d1 d2 (np.cells a) →
  (i < d0)%nat → (j < d1)%nat → (ch < d2)%nat →
  np.item (np.mk_ndarray (np.shape a) (np.assigned_cells rs re cs ce src (np.cells a)))
    i j ch =
    if (rs <=? i)%nat && (i <? re)%nat && ((cs <=? j)%nat && (j <? ce)%nat) then
      match np.item a i j ch with
      | Some old =>
          Some (default old
                  (np.item src (np.bidx (np.shape src).1.1 (i - rs))
                     (np.bidx (np.shape src).1.2 (j - cs))
                     (np.bidx (np.shape src).2 ch)))
      | None => None
      end
    else np.item a i j ch.
Proof.
  intros H Hi Hj Hch. unfold np.item, np.assigned_cells. cbn [np.cells].
  rewrite list_lookup_imap.
  destruct (np.cells a !! i) as [row|]; cbn [fmap option_fmap option_map];
    [|by destruct (_ && _)].
  destruct ((rs <=? i)%nat && (i <? re)%nat); cbn [andb]; [|done].
  rewrite list_lookup_imap.
  destruct (row !! j) as [px|]; cbn [fmap option_fmap option_map];
    [|by destruct (_ && _)].
  destruct ((cs <=? j)%nat && (j <? ce)%nat); [|done].
  rewrite list_lookup_imap. by destruct (px !! ch).
Qed.

Lemma setitem_block_unfold (a src : np.ndarray) (r0 r1 c0 c1 : Z) :
  np.setitem_block a r0 r1 c0 c1 src =
    let rs := np.slice_index (np.shape a).1.1 r0 in
    let re := np.slice_index (np.shape a).1.1 r1 in
    let cs := np.slice_index (np.shape a).1.2 c0 in
    let ce := np.slice_index (np.shape a).1.2 c1 in
    if np.broadcastable (np.shape src).1.1 (re - rs)
       && np.broadcastable (np.shape src).1.2 (ce - cs)
       && np.broadcastable (np.shape src).2 (np.shape a).2
    then Ok (np.mk_ndarray (np.shape a)
               (np.assigned_cells rs re cs ce src (np.cells a)))
    else Raise ValueError.
Proof. reflexivity. Qed.

Lemma zeros_has_shape d0 d1 d2 : np.has_shape d0 d1 d2 (np.cells (np.zeros d0 d1 d2)).
Proof.
  split; [apply length_replicate|].
  apply Forall_replicate. split; [apply length_replicate|].
  apply Forall_replicate. apply length_replicate.
Qed.

Lemma zeros_item d0 d1 d2 (i j ch : nat) :
  (i < d0)%nat → (j < d1)%nat → (ch < d2)%nat →
  np.item (np.zeros d0 d1 d2) i j ch = Some 0.
Proof.
  intros. unfold np.item, np.zeros. cbn [np.cells].
  by rewrite !lookup_replicate_2 by done.
Qed.

(** ** The [uint8] conversion *)

Lemma uint8_in_range (v : Z) : 0 ≤ v ≤ 255 → np.uint8 cast v = Ok v.
Proof.
  intros Hv. unfold np.uint8.
  destruct (Z.leb_spec 0 v); [|lia]. by destruct (Z.leb_spec v 255); [|lia].
Qed.

Lemma uint8_out_of_range (v : Z) :
  ¬ (0 ≤ v ≤ 255) →
  np.uint8 cast v =
    match cast with
    | np.cast_wraps => Ok (v mod 256)
    | np.cast_raises => Raise OverflowError
    end.
Proof.
  intros Hv. unfold np.uint8.
  destruct (Z.leb_spec 0 v); [|done]. by destruct (Z.leb_spec v 255); [lia|].
Qed.

Lemma uint8_wraps (v : Z) : np.uint8 np.cast_wraps v = Ok (v mod 256).
Proof.
  unfold np.uint8. destruct (Z.leb_spec 0 v); [|done].
  destruct (Z.leb_spec v 255); [|done]. cbn [andb]. f_equal.
  symmetry. apply Z.mod_small. lia.
Qed.

Lemma uint8_Ok_range (v u : Z) : np.uint8 cast v = Ok u → 0 ≤ u ≤ 255.
Proof.
  unfold np.uint8. destruct (Z.leb_spec 0 v); [destruct (Z.leb_spec v 255)|];
    cbn [andb].
  - intros [= <-]. lia.
  - destruct cast; [|done]. intros [= <-].
    pose proof (Z.mod_pos_bound v 256). lia.
  - destruct cast; [|done]. intros [= <-].
    pose proof (Z.mod_pos_bound v 256). lia.
Qed.

(** ** The local window *)

Lemma local_observation_unfold_dict (grid : np.ndarray) (info : info_dict) :
  local_observation grid info =
    match agent_pos info with
    | None => Raise (KeyError "agent_pos")
    | Some p =>
        match padded_patch grid p with
        | Raise e => Raise e
        | Ok padded =>
            match steps_remaining info with
            | None => Raise (KeyError "steps_remaining")
            | Some st =>
                match np.uint8 cast st with
                | Raise e => Raise e
                | Ok u =>
                    match cells_remaining info with
                    | None => Raise (KeyError "cells_remaining")
                    | Some ce =>
                        match np.uint8 cast ce with
                        | Raise e => Raise e
                        | Ok w => Ok (np.flatten padded ++ [u] ++ [w])
                        end
                    end
                end
            end
        end
    end.
Proof.
  destruct info as [[p|] st ce covered over en]; [|reflexivity].
  unfold local_observation, padded_patch, row_min, row_max, col_min, col_max,
    np.array1_uint8.
  run_hook.
  replace (p / 10 + 2 + 1) with (p / 10 + 3) by lia.
  replace (p mod 10 + 2 + 1) with (p mod 10 + 3) by lia.
  destruct (np.setitem_block _ _ _ _ _ _); [|reflexivity].
  destruct st as [st|]; [|reflexivity]. cbn [np.cells].
  destruct (np.uint8 cast st); [|reflexivity].
  destruct ce as [ce|]; [|reflexivity].
  destruct (np.uint8 cast ce); reflexivity.
Qed.

Lemma local_observation_unfold (grid : np.ndarray) (s : StepInfo) :
  local_observation grid (to_dict s) =
    match padded_patch grid (si_agent_pos s) with
    | Raise e => Raise e
    | Ok padded =>
        match np.uint8 cast (si_steps_remaining s) with
        | Raise e => Raise e
        | Ok u =>
            match np.uint8 cast (si_cells_remaining s) with
            | Raise e => Raise e
            | Ok w => Ok (np.flatten padded ++ [u] ++ [w])
            end
        end
    end.
Proof. by rewrite local_observation_unfold_dict. Qed.

Lemma window_bounds (p : Z) :
  0 ≤ p ≤ 99 →
  (0 ≤ row_min p ∧ row_min p < row_max p ∧ row_max p ≤ 10 ∧
   row_max p - row_min p ≤ 5) ∧
  (0 ≤ col_min p ∧ col_min p < col_max p ∧ col_max p ≤ 10 ∧
   col_max p - col_min p ≤ 5).
Proof.
  intros Hp. unfold row_min, row_max, col_min, col_max.
  assert (0 ≤ p / 10 < 10)
    by (split; [apply Z.div_pos|apply Z.div_lt_upper_bound]; lia).
  assert (0 ≤ p mod 10 < 10) by (apply Z.mod_pos_bound; lia).
  lia.
Qed.

(** On a position inside the grid the patch assignment succeeds and the
    buffer holds the clipped window in its top-left corner. *)
Lemma padded_patch_in_range (grid : np.ndarray) (p : Z) :
  np.shape grid = (10%nat, 10%nat, 3%nat) → np.wf grid →
  0 ≤ p ≤ 99 →
  ∃ padded : np.ndarray,
    padded_patch grid p = Ok padded ∧
    np.has_shape 5 5 3 (np.cells padded) ∧
    ∀ i j ch : nat, (i < 5)%nat → (j < 5)%nat → (ch < 3)%nat →
      np.item padded i j ch = patch_cell grid p i j ch.
Proof.
  intros Hs Hwf Hp. unfold np.wf in Hwf. rewrite Hs in Hwf. cbn [fst snd] in Hwf.
  unfold padded_patch.
  destruct (window_bounds p Hp) as [(Hr0 & Hr1 & Hr2 & Hr3) (Hc0 & Hc1 & Hc2 & Hc3)].
  rewrite setitem_block_unfold. cbv zeta.
  rewrite (getitem_block_shape 10 10 3) by (done || lia).
  cbn [np.shape np.zeros fst snd].
  rewrite !slice_index_in_range by lia.
  change (Z.to_nat 0) with 0%nat. rewrite !Nat.sub_0_r.
  unfold np.broadcastable. rewrite !Nat.eqb_refl. cbn [orb andb].
  eexists. split; [reflexivity|].
  split; [apply assigned_cells_has_shape, zeros_has_shape|].
  intros i j ch Hi Hj Hch.
  change (replicate 5 (replicate 5 (replicate 3 0)))
    with (np.cells (np.zeros 5 5 3)).
  change (5%nat, 5%nat, 3%nat) with (np.shape (np.zeros 5 5 3)).
  rewrite (assigned_cells_item 5 5 3) by (done || apply zeros_has_shape).
  rewrite zeros_item by done. unfold patch_cell.
  cbn [Nat.leb andb].
  destruct (Nat.ltb_spec i (Z.to_nat (row_max p - row_min p))) as [Hih|];
    [|done].
  destruct (Nat.ltb_spec j (Z.to_nat (col_max p - col_min p))) as [Hjw|];
    [|done].
  cbn [andb]. rewrite (getitem_block_shape 10 10 3) by (done || lia).
  cbn [fst snd]. rewrite !Nat.sub_0_r.
  rewrite !bidx_in_block by done.
  rewrite (getitem_block_item 10 10 3) by (done || lia).
  destruct (item_is_Some 10 10 3 grid (Z.to_nat (row_min p) + i)
              (Z.to_nat (col_min p) + j) ch) as [v Hv]; [done|lia|lia|lia|].
  by rewrite Hv.
Qed.

(** What a returned observation holds, for a position inside the grid. *)
Lemma local_observation_Ok_cells (grid : np.ndarray) (s : StepInfo)
  (padded : np.ndarray) (obs : list Z) :
  np.has_shape 5 5 3 (np.cells padded) →
  padded_patch grid (si_agent_pos s) = Ok padded →
  local_observation grid (to_dict s) = Ok obs →
  length obs = 77%nat ∧
  (∃ u w : Z,
     np.uint8 cast (si_steps_remaining s) = Ok u ∧
     np.uint8 cast (si_cells_remaining s) = Ok w ∧
     obs !! 75%nat = Some u ∧ obs !! 76%nat = Some w) ∧
  ∀ i j ch : nat, (i < 5)%nat → (j < 5)%nat → (ch < 3)%nat →
    obs !! (15 * i + 3 * j + ch)%nat = np.item padded i j ch.
Proof.
  intros Hshape Hpad. rewrite local_observation_unfold, Hpad.
  pose proof (flatten_length 5 5 3 padded Hshape) as Hlen.
  destruct (np.uint8 cast (si_steps_remaining s)) as [u|]; [|done].
  destruct (np.uint8 cast (si_cells_remaining s)) as [w|]; [|done].
  intros [= <-]. split_and!.
  - rewrite !length_app, Hlen. reflexivity.
  - exists u, w. split_and!; [done|done| |].
    + rewrite lookup_app_r by lia. by rewrite Hlen.
    + rewrite lookup_app_r by lia. by rewrite Hlen.
  - intros i j ch Hi Hj Hch.
    rewrite lookup_app_l by (rewrite Hlen; lia).
    replace (15 * i + 3 * j + ch)%nat with ((i * 5 + j) * 3 + ch)%nat by lia.
    by rewrite (flatten_lookup 5 5 3) by done.
Qed.

(** A position inside the grid and two scalars that convert: the call
    returns. *)
Lemma local_observation_returns (grid : np.ndarray) (s : StepInfo) :
  np.shape grid = (10%nat, 10%nat, 3%nat) → np.wf grid →
  0 ≤ si_agent_pos s ≤ 99 →
  cast = np.cast_wraps ∨
    (0 ≤ si_steps_remaining s ≤ 255 ∧ 0 ≤ si_cells_remaining s ≤ 255) →
  ∃ obs : list Z, local_observation grid (to_dict s) = Ok obs.
Proof.
  intros Hs Hwf Hp Hcast.
  destruct (padded_patch_in_range grid _ Hs Hwf Hp) as (padded & Hpad & _ & _).
  rewrite local_observation_unfold, Hpad.
  destruct Hcast as [->|[Hst Hce]].
  - rewrite !uint8_wraps. by eexists.
  - rewrite !uint8_in_range by done. by eexists.
Qed.

Lemma local_observation_length (grid : np.ndarray) (s : StepInfo) :
  np.shape grid = (10%nat, 10%nat, 3%nat) → np.wf grid →
  0 ≤ si_agent_pos s ≤ 99 →
  0 ≤ si_steps_remaining s ≤ 255 → 0 ≤ si_cells_remaining s ≤ 255 →
  ∃ obs : list Z,
    local_observation grid (to_dict s) = Ok obs ∧ length obs = 77%nat.
Proof.
  intros Hs Hwf Hp Hst Hce.
  destruct (padded_patch_in_range grid _ Hs Hwf Hp) as (padded & Hpad & Hshape & _).
  destruct (local_observation_returns grid s Hs Hwf Hp) as [obs Hrun]; [by right|].
  exists obs. split; [done|].
  by destruct (local_observation_Ok_cells grid s padded obs Hshape Hpad Hrun).
Qed.

Lemma patch_cell_is_Some (grid : np.ndarray) (p : Z) (i j ch : nat) :
  np.shape grid = (10%nat, 10%nat, 3%nat) → np.wf grid → 0 ≤ p ≤ 99 →
  (i < 5)%nat → (j < 5)%nat → (ch < 3)%nat →
  is_Some (patch_cell grid p i j ch).
Proof.
  intros Hs Hwf Hp Hi Hj Hch. unfold np.wf in Hwf. rewrite Hs in Hwf.
  cbn [fst snd] in Hwf.
  destruct (window_bounds p Hp) as [(Hr0 & Hr1 & Hr2 & Hr3) (Hc0 & Hc1 & Hc2 & Hc3)].
  unfold patch_cell.
  destruct (Nat.ltb_spec i (Z.to_nat (row_max p - row_min p))); [|by eexists].
  destruct (Nat.ltb_spec j (Z.to_nat (col_max p - col_min p))); [|by eexists].
  cbn [andb]. apply (item_is_Some 10 10 3); [done|lia..].
Qed.

(** C1: for a grid of shape (10,10,3) and an agent position [p] in [0,99],
    whatever the rest of the record, the window is rows
    [max(0, p/10 - 2), min(10, p/10 + 3)) and columns
    [max(0, p mod 10 - 2), min(10, p mod 10 + 3)), it lies inside the grid,
    and the block assignment succeeds and leaves a 5x5x3 buffer holding that
    window in its top-left corner and zeros elsewhere; positions 0 and 99
    give the 3x3 windows at rows and columns 0..2 and 7..9. The first 75
    elements of every observation [local_observation] returns are that
    buffer, and it returns one whenever the two scalars convert to
    [uint8]. *)
Theorem local_observation_window (grid : np.ndarray) (s : StepInfo) :
  np.shape grid = (10%nat, 10%nat, 3%nat) → np.wf grid →
  0 ≤ si_agent_pos s ≤ 99 →
  let p := si_agent_pos s in
  (0 ≤ row_min p ∧ row_min p < row_max p ∧ row_max p ≤ 10 ∧
   0 ≤ col_min p ∧ col_min p < col_max p ∧ col_max p ≤ 10) ∧
  ∃ padded : np.ndarray,
    padded_patch grid p = Ok padded ∧
    (∀ i j ch : nat, (i < 5)%nat → (j < 5)%nat → (ch < 3)%nat →
       np.item padded i j ch = patch_cell grid p i j ch ∧
       is_Some (patch_cell grid p i j ch)) ∧
    (p = 0 → ∀ i j ch : nat, (i < 5)%nat → (j < 5)%nat → (ch < 3)%nat →
       np.item padded i j ch =
         if (i <? 3)%nat && (j <? 3)%nat then np.item grid i j ch else Some 0) ∧
    (p = 99 → ∀ i j ch : nat, (i < 5)%nat → (j < 5)%nat → (ch < 3)%nat →
       np.item padded i j ch =
         if (i <? 3)%nat && (j <? 3)%nat
         then np.item grid (7 + i) (7 + j) ch else Some 0) ∧
    (∀ obs : list Z,
       local_observation grid (to_dict s) = Ok obs →
       ∀ i j ch : nat, (i < 5)%nat → (j < 5)%nat → (ch < 3)%nat →
         obs !! (15 * i + 3 * j + ch)%nat = np.item padded i j ch) ∧
    (cast = np.cast_wraps ∨
       (0 ≤ si_steps_remaining s ≤ 255 ∧ 0 ≤ si_cells_remaining s ≤ 255) →
     ∃ obs : list Z, local_observation grid (to_dict s) = Ok obs).
Proof.
  intros Hs Hwf Hp p.
  destruct (window_bounds p Hp) as [(Hr0 & Hr1 & Hr2 & Hr3) (Hc0 & Hc1 & Hc2 & Hc3)].
  split; [lia|].
  destruct (padded_patch_in_range grid p Hs Hwf Hp) as (padded & Hpad & Hshape & Hcell).
  exists padded. split; [exact Hpad|]. split_and!.
  - intros i j ch Hi Hj Hch. split; [by apply Hcell|by apply patch_cell_is_Some].
  - intros H0 i j ch Hi Hj Hch. rewrite Hcell by done. by rewrite H0.
  - intros H99 i j ch Hi Hj Hch. rewrite Hcell by done. by rewrite H99.
  - intros obs Hrun.
    by destruct (local_observation_Ok_cells grid s padded obs Hshape Hpad Hrun)
      as (_ & _ & Hobs).
  - by apply local_observation_returns.
Qed.

Lemma sample_grid_wf : np.wf sample_grid.
Proof. apply (bool_decide_unpack _). vm_compute. exact I. Qed.

(** ** The two scalars and the length *)

(** C3 (amended): for a grid of shape (10,10,3) and an agent position in
    [0,99], every vector [local_observation] returns has exactly 77
    elements. When [steps_remaining] and [cells_remaining] lie in [0,255] it
    returns, with the two values themselves (which are their own clamps) at
    indices 75 and 76. A value outside [0,255] is never clamped: where the
    conversion wraps, the call returns with the value modulo 256 at that
    index, and where it raises, the call raises [OverflowError]. *)
Theorem local_observation_length_and_scalars (grid : np.ndarray) (s : StepInfo) :
  np.shape grid = (10%nat, 10%nat, 3%nat) → np.wf grid →
  0 ≤ si_agent_pos s ≤ 99 →
  (∀ obs : list Z,
     local_observation grid (to_dict s) = Ok obs → length obs = 77%nat) ∧
  (0 ≤ si_steps_remaining s ≤ 255 → 0 ≤ si_cells_remaining s ≤ 255 →
     ∃ obs : list Z,
       local_observation grid (to_dict s) = Ok obs ∧
       length obs = 77%nat ∧
       obs !! 75%nat = Some (si_steps_remaining s) ∧
       obs !! 76%nat = Some (si_cells_remaining s) ∧
       clamp_uint8 (si_steps_remaining s) = si_steps_remaining s ∧
       clamp_uint8 (si_cells_remaining s) = si_cells_remaining s) ∧
  (cast = np.cast_wraps →
     ∃ obs : list Z,
       local_observation grid (to_dict s) = Ok obs ∧
       length obs = 77%nat ∧
       obs !! 75%nat = Some (si_steps_remaining s mod 256) ∧
       obs !! 76%nat = Some (si_cells_remaining s mod 256)) ∧
  (cast = np.cast_raises →
     ¬ (0 ≤ si_steps_remaining s ≤ 255) ∨ ¬ (0 ≤ si_cells_remaining s ≤ 255) →
     local_observation grid (to_dict s) = Raise OverflowError).
Proof.
  intros Hs Hwf Hp.
  destruct (padded_patch_in_range grid _ Hs Hwf Hp) as (padded & Hpad & Hshape & _).
  assert (Hok : ∀ obs : list Z,
            local_observation grid (to_dict s) = Ok obs →
            length obs = 77%nat ∧
            ∃ u w : Z,
              np.uint8 cast (si_steps_remaining s) = Ok u ∧
              np.uint8 cast (si_cells_remaining s) = Ok w ∧
              obs !! 75%nat = Some u ∧ obs !! 76%nat = Some w).
  { intros obs Hrun.
    by destruct (local_observation_Ok_cells grid s padded obs Hshape Hpad Hrun)
      as (? & ? & _). }
  split_and!.
  - intros obs Hrun. by destruct (Hok obs Hrun).
  - intros Hst Hce.
    destruct (local_observation_returns grid s Hs Hwf Hp) as [obs Hrun]; [by right|].
    destruct (Hok obs Hrun) as (Hlen & u & w & Hu & Hw & H75 & H76).
    rewrite uint8_in_range in Hu, Hw by done.
    injection Hu as <-. injection Hw as <-.
    exists obs. unfold clamp_uint8. split_and!; [done|done|done|done|lia|lia].
  - intros Hcast.
    destruct (local_observation_returns grid s Hs Hwf Hp) as [obs Hrun]; [by left|].
    destruct (Hok obs Hrun) as (Hlen & u & w & Hu & Hw & H75 & H76).
    rewrite Hcast, uint8_wraps in Hu, Hw.
    injection Hu as <-. injection Hw as <-.
    by exists obs.
  - intros Hcast Hout. rewrite local_observation_unfold, Hpad.
    destruct (decide (0 ≤ si_steps_remaining s ≤ 255)) as [Hst|Hst].
    + destruct Hout as [Hout|Hce]; [done|].
      rewrite uint8_in_range by done.
      by rewrite uint8_out_of_range, Hcast by done.
    + by rewrite uint8_out_of_range, Hcast by done.
Qed.

(** ** Inputs outside the documented domain *)





Lemma setitem_patch (grid : np.ndarray) (p : Z) :
  np.shape grid = (10%nat, 10%nat, 3%nat) →
  padded_patch grid p =
  if patch_fits p then
    Ok (np.mk_ndarray (5%nat, 5%nat, 3%nat)
          (np.assigned_cells (np.slice_index 5 0)
             (np.slice_index 5 (row_max p - row_min p))
             (np.slice_index 5 0)
             (np.slice_index 5 (col_max p - col_min p))
             (np.getitem_block grid (row_min p) (row_max p) (col_min p) (col_max p))
             (np.cells (np.zeros 5 5 3))))
  else Raise ValueError.
Proof.
  intros Hs. unfold padded_patch. rewrite setitem_block_unfold. cbv zeta.
  unfold np.getitem_block at 1 2 3. cbn [np.shape np.zeros fst snd].
  rewrite Hs. reflexivity.
Qed.

Lemma padded_patch_Ok_shape (grid : np.ndarray) (p : Z) (padded : np.ndarray) :
  np.shape grid = (10%nat, 10%nat, 3%nat) →
  padded_patch grid p = Ok padded → np.has_shape 5 5 3 (np.cells padded).
Proof.
  intros Hs. rewrite setitem_patch by done. destruct (patch_fits p); [|done].
  intros [= <-]. apply assigned_cells_has_shape, zeros_has_shape.
Qed.


(** ** The hooks *)

Lemma reward_time_pressure_keeps_LAST_INFO (info : info_dict) (g : globals) :
  LAST_INFO (reward_time_pressure info g).2 = LAST_INFO g.
Proof.
  destruct info as [p st ce covered over en].
  unfold reward_time_pressure. run_hook.
  destruct covered; [|done]. destruct over; [|done]. by destruct p.
Qed.

Lemma reward_unfold (info : info_dict) (g : globals) :
  reward info g =
    let g' := set_LAST_INFO (Some info) g in
    if String.eqb (CURRENT_REWARD_MODE g) "basic" then (reward_basic info, g')
    else if String.eqb (CURRENT_REWARD_MODE g) "time_pressure"
         then reward_time_pressure info g'
         else (reward_proximity info, g').
Proof.
  unfold reward. run_hook.
  destruct (String.eqb (CURRENT_REWARD_MODE g) "basic"); [done|].
  by destruct (String.eqb (CURRENT_REWARD_MODE g) "time_pressure").
Qed.

(** C6: [reward(info)] stores [info] in [LAST_INFO] and then returns what the
    policy named by [CURRENT_REWARD_MODE] returns, the policy running with
    the cache already written: [reward_basic] for "basic",
    [reward_time_pressure] for "time_pressure", [reward_proximity] for
    "proximity". *)
Theorem reward_caches_then_dispatches (info : info_dict) (g : globals) :
  let cached := set_LAST_INFO (Some info) g in
  (CURRENT_REWARD_MODE g = "basic" →
     reward info g = (reward_basic info, cached)) ∧
  (CURRENT_REWARD_MODE g = "time_pressure" →
     reward info g = reward_time_pressure info cached) ∧
  (CURRENT_REWARD_MODE g = "proximity" →
     reward info g = (reward_proximity info, cached)) ∧
  LAST_INFO (reward info g).2 = Some info.
Proof.
  cbv zeta. rewrite reward_unfold. cbv zeta. split_and!.
  - by intros ->.
  - by intros ->.
  - by intros ->.
  - destruct (String.eqb (CURRENT_REWARD_MODE g) "basic"); [done|].
    destruct (String.eqb (CURRENT_REWARD_MODE g) "time_pressure"); [|done].
    by rewrite reward_time_pressure_keeps_LAST_INFO.
Qed.

Lemma reward_caches_then_dispatches_witness :
  reward (to_dict two_enemies_step) initial_globals =
    (Ok 1.0%float, set_LAST_INFO (Some (to_dict two_enemies_step)) initial_globals) ∧
  (reward (to_dict two_enemies_step)
     (set_CURRENT_REWARD_MODE "time_pressure" initial_globals)).1 = Ok 0.99%float ∧
  (reward (to_dict two_enemies_step)
     (set_CURRENT_REWARD_MODE "proximity" initial_globals)).1 = Ok 0.89%float.
Proof.
  split_and!.
  - apply (reward_caches_then_dispatches (to_dict two_enemies_step) initial_globals).
    reflexivity.
  - destruct (reward_caches_then_dispatches (to_dict two_enemies_step)
                (set_CURRENT_REWARD_MODE "time_pressure" initial_globals))
      as (_ & H & _).
    rewrite H; reflexivity.
  - destruct (reward_caches_then_dispatches (to_dict two_enemies_step)
                (set_CURRENT_REWARD_MODE "proximity" initial_globals))
      as (_ & _ & H & _).
    rewrite H; reflexivity.
Defined.

Lemma observation_unfold (grid : np.ndarray) (g : globals) :
  observation grid g =
    if String.eqb (CURRENT_OBS_MODE g) "local" then
      match LAST_INFO g with
      | Some info => (local_observation grid info, g)
      | None => (Ok (np.flatten grid), g)
      end
    else (Ok (np.flatten grid), g).
Proof.
  unfold observation. run_hook.
  destruct (String.eqb (CURRENT_OBS_MODE g) "local"); [|done].
  by destruct (LAST_INFO g).
Qed.

Lemma local_observation_Ok_length (grid : np.ndarray) (info : info_dict) (obs : list Z) :
  np.shape grid = (10%nat, 10%nat, 3%nat) →
  local_observation grid info = Ok obs → length obs = 77%nat.
Proof.
  intros Hs. rewrite local_observation_unfold_dict.
  destruct (agent_pos info) as [p|]; [|done].
  destruct (padded_patch grid p) as [padded|] eqn:Hpad; [|done].
  pose proof (flatten_length 5 5 3 padded
                (padded_patch_Ok_shape grid p padded Hs Hpad)) as Hlen.
  destruct (steps_remaining info) as [st|]; [|done].
  destruct (np.uint8 cast st) as [u|]; [|done].
  destruct (cells_remaining info) as [ce|]; [|done].
  destruct (np.uint8 cast ce) as [w|]; [|done].
  intros [= <-]. rewrite !length_app, Hlen. reflexivity.
Qed.

(** C7 (amended): in "local" mode with a cached record [observation(grid)]
    is [local_observation] on that record, returning what it returns and
    raising what it raises; every vector it returns has 77 elements, and it
    does return one for a complete record with the agent inside the grid and
    both scalars in [0,255]. In "local" mode with an empty cache it is the
    full-grid flatten of 300 elements, and in "global" mode it is always the
    300-element flatten. *)
Theorem observation_by_mode (grid : np.ndarray) (g : globals) :
  np.shape grid = (10%nat, 10%nat, 3%nat) → np.wf grid →
  (CURRENT_OBS_MODE g = "local" →
     ∀ info : info_dict, LAST_INFO g = Some info →
       observation grid g = (local_observation grid info, g)) ∧
  (CURRENT_OBS_MODE g = "local" →
     ∀ (info : info_dict) (obs : list Z), LAST_INFO g = Some info →
       (observation grid g).1 = Ok obs → length obs = 77%nat) ∧
  (CURRENT_OBS_MODE g = "local" →
     ∀ s : StepInfo, LAST_INFO g = Some (to_dict s) → 0 ≤ si_agent_pos s ≤ 99 →
       0 ≤ si_steps_remaining s ≤ 255 → 0 ≤ si_cells_remaining s ≤ 255 →
       ∃ obs : list Z, observation grid g = (Ok obs, g) ∧ length obs = 77%nat) ∧
  (CURRENT_OBS_MODE g = "local" → LAST_INFO g = None →
     observation grid g = (Ok (np.flatten grid), g) ∧
     length (np.flatten grid) = 300%nat) ∧
  (CURRENT_OBS_MODE g = "global" →
     observation grid g = (Ok (np.flatten grid), g) ∧
     length (np.flatten grid) = 300%nat).
Proof.
  intros Hs Hwf. rewrite observation_unfold.
  assert (Hlen : length (np.flatten grid) = 300%nat).
  { unfold np.wf in Hwf. rewrite Hs in Hwf. by apply (flatten_length 10 10 3). }
  split_and!.
  - by intros -> info ->.
  - intros -> info obs ->. cbn [String.eqb Ascii.eqb Bool.eqb fst].
    by apply local_observation_Ok_length.
  - intros -> s -> Hp Hst Hce. cbn [String.eqb Ascii.eqb Bool.eqb].
    destruct (local_observation_length grid s Hs Hwf Hp Hst Hce) as (obs & -> & Hl).
    by exists obs.
  - by intros -> ->.
  - by intros ->.
Qed.

(** ** The cached info over the life of the process *)

Lemma observation_keeps_globals (grid : np.ndarray) (g : globals) :
  (observation grid g).2 = g.
Proof.
  rewrite observation_unfold.
  destruct (String.eqb _ _); [|done]. by destruct (LAST_INFO g).
Qed.

Lemma observation_space_keeps_globals (g : globals) :
  (observation_space g).2 = g.
Proof.
  unfold observation_space. run_hook. by destruct (String.eqb _ _).
Qed.

Lemma reward_sets_LAST_INFO (info : info_dict) (g : globals) :
  LAST_INFO (reward info g).2 = Some info.
Proof.
  rewrite reward_unfold. cbv zeta.
  destruct (String.eqb (CURRENT_REWARD_MODE g) "basic"); [done|].
  destruct (String.eqb (CURRENT_REWARD_MODE g) "time_pressure"); [|done].
  by rewrite reward_time_pressure_keeps_LAST_INFO.
Qed.

Lemma exec_LAST_INFO (o : op) (g : globals) :
  LAST_INFO (exec o g) =
    match o with call_reward info => Some info | _ => LAST_INFO g end.
Proof.
  destruct o; cbn [exec]; try done.
  - apply reward_time_pressure_keeps_LAST_INFO.
  - by rewrite observation_space_keeps_globals.
  - by rewrite observation_keeps_globals.
  - apply reward_sets_LAST_INFO.
Qed.

Lemma exec_keeps_cache (o : op) (g : globals) :
  is_Some (LAST_INFO g) → is_Some (LAST_INFO (exec o g)).
Proof. rewrite exec_LAST_INFO. by destruct o. Qed.

Lemma run_keeps_cache (ops : list op) (g : globals) :
  is_Some (LAST_INFO g) → is_Some (LAST_INFO (run ops g)).
Proof.
  revert g. induction ops as [|o ops IH]; intros g Hg; [done|].
  apply IH. by apply exec_keeps_cache.
Qed.

Lemma run_app (ops1 ops2 : list op) (g : globals) :
  run (ops1 ++ ops2) g = run ops2 (run ops1 g).
Proof. apply foldl_app. Qed.

Lemma run_without_reward (ops : list op) (g : globals) :
  forallb (λ o, negb (is_reward_call o)) ops = true →
  LAST_INFO (run ops g) = LAST_INFO g.
Proof.
  revert g. induction ops as [|o ops IH]; intros g Hops; [done|].
  cbn [forallb] in Hops. apply andb_true_iff in Hops as [Ho Hops].
  cbn [run foldl]. fold (run ops (exec o g)). rewrite IH by done.
  rewrite exec_LAST_INFO. by destruct o.
Qed.

(** C10: no operation empties a filled cache: each function of the module
    and each assignment of a mode flag leaves [LAST_INFO] filled once it is,
    [observation] never writes the globals and [reward] overwrites the cache
    with its argument. So after any sequence of operations that contains a
    call of [reward], whatever came before and after it (later episodes
    included), the cache is filled, [observation] does not take the fallback
    branch and in "local" mode it is [local_observation] on the cached info;
    from the initial globals the cache is empty exactly as long as [reward]
    has not been called. *)
Theorem cache_never_cleared :
  (∀ (o : op) (g : globals),
     is_Some (LAST_INFO g) → is_Some (LAST_INFO (exec o g))) ∧
  (∀ (grid : np.ndarray) (g : globals), (observation grid g).2 = g) ∧
  (∀ (info : info_dict) (g : globals),
     LAST_INFO (reward info g).2 = Some info) ∧
  (∀ (before after : list op) (info : info_dict) (g : globals),
     let g' := run (before ++ call_reward info :: after) g in
     falls_back g' = false ∧
     ∃ cached : info_dict,
       LAST_INFO g' = Some cached ∧
       ∀ grid : np.ndarray,
         CURRENT_OBS_MODE g' = "local" →
         observation grid g' = (local_observation grid cached, g')) ∧
  (∀ ops : list op,
     forallb (λ o, negb (is_reward_call o)) ops = true →
     LAST_INFO (run ops initial_globals) = None).
Proof.
  split_and!.
  - apply exec_keeps_cache.
  - apply observation_keeps_globals.
  - apply reward_sets_LAST_INFO.
  - intros before after info g g'.
    assert (is_Some (LAST_INFO g')) as [cached Hc].
    { unfold g'. rewrite run_app. cbn [run foldl].
      apply run_keeps_cache. rewrite exec_LAST_INFO. by eexists. }
    split.
    + unfold falls_back. rewrite Hc. apply andb_false_r.
    + exists cached. split; [done|]. intros grid Hmode.
      by rewrite observation_unfold, Hmode, Hc.
  - intros ops Hops. by rewrite run_without_reward.
Qed.

(** * Further properties of custom.py *)

(** ** Observations stay inside the declared bounds *)

Section cells_forall.
Context (P : Z → Prop).

Lemma slice_Forall {A} (Q : A → Prop) (start stop : Z) (l : list A) :
  Forall Q l → Forall Q (np.slice start stop l).
Proof. intros H. unfold np.slice. by apply Forall_take, Forall_drop. Qed.

Lemma getitem_block_Forall (a : np.ndarray) (r0 r1 c0 c1 : Z) :
  Forall (Forall (Forall P)) (np.cells a) →
  Forall (Forall (Forall P)) (np.cells (np.getitem_block a r0 r1 c0 c1)).
Proof.
  intros H. unfold np.getitem_block. cbn [np.cells].
  apply Forall_fmap. eapply Forall_impl; [by apply slice_Forall|].
  intros row Hrow. by apply slice_Forall.
Qed.

Lemma item_Forall (a : np.ndarray) (r c ch : nat) (v : Z) :
  Forall (Forall (Forall P)) (np.cells a) → np.item a r c ch = Some v → P v.
Proof.
  intros H. unfold np.item.
  destruct (np.cells a !! r) as [row|] eqn:Hrow; [|done].
  destruct (row !! c) as [px|] eqn:Hpx; [|done]. intros Hv.
  pose proof (Forall_lookup_1 _ _ _ _ H Hrow) as H1.
  pose proof (Forall_lookup_1 _ _ _ _ H1 Hpx) as H2.
  by apply (Forall_lookup_1 _ _ _ _ H2 Hv).
Qed.

Lemma assigned_cells_Forall rs re cs ce (src : np.ndarray) c :
  Forall (Forall (Forall P)) (np.cells src) →
  Forall (Forall (Forall P)) c →
  Forall (Forall (Forall P)) (np.assigned_cells rs re cs ce src c).
Proof.
  intros Hsrc Hc. unfold np.assigned_cells.
  apply Forall_lookup_2. intros i row'. rewrite list_lookup_imap. intros Hrow'.
  apply fmap_Some_1 in Hrow' as (row & Hrow & ->).
  pose proof (Forall_lookup_1 _ _ _ _ Hc Hrow) as H1.
  destruct (_ && _); [|done].
  apply Forall_lookup_2. intros j px'. rewrite list_lookup_imap. intros Hpx'.
  apply fmap_Some_1 in Hpx' as (px & Hpx & ->).
  pose proof (Forall_lookup_1 _ _ _ _ H1 Hpx) as H2.
  destruct (_ && _); [|done].
  apply Forall_lookup_2. intros ch v'. rewrite list_lookup_imap. intros Hv'.
  apply fmap_Some_1 in Hv' as (old & Hold & ->).
  pose proof (Forall_lookup_1 _ _ _ _ H2 Hold) as H3.
  destruct (np.item src _ _ _) as [v|] eqn:Hv; [|done].
  cbn [default]. by eapply item_Forall.
Qed.

Lemma flatten_Forall (a : np.ndarray) :
  Forall (Forall (Forall P)) (np.cells a) → Forall P (np.flatten a).
Proof. intros H. unfold np.flatten. by apply Forall_join, Forall_join. Qed.

End cells_forall.

Lemma local_observation_Forall_uint8 (grid : np.ndarray) (info : info_dict) (obs : list Z) :
  uint8_cells grid → local_observation grid info = Ok obs → Forall is_uint8 obs.
Proof.
  intros Hgrid. rewrite local_observation_unfold_dict.
  destruct (agent_pos info) as [p|]; [|done].
  unfold padded_patch, np.setitem_block. cbv zeta. destruct (_ && _); [|done].
  destruct (steps_remaining info) as [st|]; [|done].
  destruct (np.uint8 cast st) as [u|] eqn:Hu; [|done].
  destruct (cells_remaining info) as [ce|]; [|done].
  destruct (np.uint8 cast ce) as [w|] eqn:Hw; [|done].
  intros [= <-]. apply Forall_app. split.
  - apply flatten_Forall. cbn [np.cells]. apply assigned_cells_Forall.
    + by apply getitem_block_Forall.
    + change (Forall (Forall (Forall is_uint8))
                (replicate 5 (replicate 5 (replicate 3 0)))).
      repeat apply Forall_replicate. unfold is_uint8. lia.
  - repeat constructor; unfold is_uint8; by eapply uint8_Ok_range.
Qed.

(** X1: whatever the mode and whatever the cache holds, when [observation]
    returns on a grid of unsigned bytes every element of the result lies in
    [0,255], the bounds both [Box] spaces declare. *)
Theorem observation_within_box_bounds (grid : np.ndarray) (g : globals) (obs : list Z) :
  uint8_cells grid →
  (observation grid g).1 = Ok obs →
  Forall (λ v, low global_observation_space ≤ v ≤ high global_observation_space) obs ∧
  Forall (λ v, low local_observation_space ≤ v ≤ high local_observation_space) obs.
Proof.
  intros Hgrid. rewrite observation_unfold.
  assert (Hflat : Forall is_uint8 (np.flatten grid)) by by apply flatten_Forall.
  assert (Hall : ∀ l : list Z, Forall is_uint8 l →
            Forall (λ v, low global_observation_space ≤ v ≤ high global_observation_space) l ∧
            Forall (λ v, low local_observation_space ≤ v ≤ high local_observation_space) l)
    by (by intros l Hl; split).
  destruct (String.eqb _ _).
  - destruct (LAST_INFO g) as [info|]; cbn [fst].
    + intros Hrun. apply Hall. by apply (local_observation_Forall_uint8 grid info).
    + intros [= <-]. by apply Hall.
  - intros [= <-]. by apply Hall.
Qed.

Lemma sample_grid_uint8 : uint8_cells sample_grid.
Proof. apply (bool_decide_unpack _). vm_compute. exact I. Qed.

(** ** Declared space against returned length *)

(** X2: on a grid of shape (10,10,3), when [observation_space] and
    [observation] both return, the observation has the declared number of
    elements exactly when the fallback branch is not taken; in the fallback
    ("local" mode, empty cache) the space declares 77 elements and the
    observation has 300. *)
Theorem observation_length_vs_declared_space
  (grid : np.ndarray) (g : globals) (box : Box) (obs : list Z) :
  np.shape grid = (10%nat, 10%nat, 3%nat) → np.wf grid →
  (observation_space g).1 = Ok box →
  (observation grid g).1 = Ok obs →
  (length obs = box_shape box ↔ falls_back g = false) ∧
  (falls_back g = true → box_shape box = 77%nat ∧ length obs = 300%nat).
Proof.
  intros Hs Hwf. rewrite observation_unfold. unfold observation_space, falls_back.
  run_hook.
  assert (Hlen : length (np.flatten grid) = 300%nat).
  { unfold np.wf in Hwf. rewrite Hs in Hwf. by apply (flatten_length 10 10 3). }
  destruct (String.eqb (CURRENT_OBS_MODE g) "local"); cbn [fst andb].
  - intros [= <-]. destruct (LAST_INFO g) as [info|]; cbn [fst].
    + intros Hrun. rewrite (local_observation_Ok_length grid info obs Hs Hrun).
      by split.
    + intros [= <-]. rewrite Hlen. cbn [box_shape local_observation_space].
      split; [split; [lia|done]|done].
  - intros [= <-] [= <-]. rewrite Hlen. by split.
Qed.

(** ** Where the window lands in the buffer *)

Lemma local_observation_patch_cells (grid : np.ndarray) (s : StepInfo) (obs : list Z) :
  np.shape grid = (10%nat, 10%nat, 3%nat) → np.wf grid →
  0 ≤ si_agent_pos s ≤ 99 →
  local_observation grid (to_dict s) = Ok obs →
  ∀ i j ch : nat, (i < 5)%nat → (j < 5)%nat → (ch < 3)%nat →
    obs !! (15 * i + 3 * j + ch)%nat = patch_cell grid (si_agent_pos s) i j ch.
Proof.
  intros Hs Hwf Hp Hrun i j ch Hi Hj Hch.
  destruct (padded_patch_in_range grid _ Hs Hwf Hp) as (padded & Hpad & Hshape & Hcell).
  destruct (local_observation_Ok_cells grid s padded obs Hshape Hpad Hrun)
    as (_ & _ & Hobs).
  rewrite Hobs by done. by apply Hcell.
Qed.

(** X3: with the agent at row [r] and column [c] of a (10,10,3) grid, its
    own cell is at row [min r 2], column [min c 2] of the 5x5 buffer in every
    observation [local_observation] returns: the centre when the agent is
    two or more cells from the top and left edges, and nearer the corner
    otherwise (padding is added at the bottom and the right only). The call
    returns when both scalars lie in [0,255]. *)
Theorem agent_cell_position_in_patch (grid : np.ndarray) (s : StepInfo) :
  np.shape grid = (10%nat, 10%nat, 3%nat) → np.wf grid →
  0 ≤ si_agent_pos s ≤ 99 →
  let r := Z.to_nat (si_agent_pos s / 10) in
  let c := Z.to_nat (si_agent_pos s mod 10) in
  (∀ obs : list Z,
     local_observation grid (to_dict s) = Ok obs →
     ∀ ch : nat, (ch < 3)%nat →
       obs !! (15 * Nat.min r 2 + 3 * Nat.min c 2 + ch)%nat = np.item grid r c ch) ∧
  (0 ≤ si_steps_remaining s ≤ 255 → 0 ≤ si_cells_remaining s ≤ 255 →
     ∃ obs : list Z, local_observation grid (to_dict s) = Ok obs).
Proof.
  intros Hs Hwf Hp r c. split.
  - intros obs Hrun ch Hch.
    rewrite (local_observation_patch_cells grid s obs Hs Hwf Hp Hrun) by lia.
    unfold patch_cell. set (p := si_agent_pos s) in *.
    assert (0 ≤ p / 10 < 10)
      by (split; [apply Z.div_pos|apply Z.div_lt_upper_bound]; lia).
    assert (0 ≤ p mod 10 < 10) by (apply Z.mod_pos_bound; lia).
    unfold row_min, row_max, col_min, col_max.
    destruct (Nat.ltb_spec (Nat.min r 2)
                (Z.to_nat (Z.min 10 (p / 10 + 3) - Z.max 0 (p / 10 - 2)))); [|lia].
    destruct (Nat.ltb_spec (Nat.min c 2)
                (Z.to_nat (Z.min 10 (p mod 10 + 3) - Z.max 0 (p mod 10 - 2)))); [|lia].
    cbn [andb]. f_equal; lia.
  - intros Hst Hce. apply local_observation_returns; auto.
Qed.

Lemma flat_index_split (k : nat) :
  (k < 75)%nat →
  ∃ i j ch : nat,
    (i < 5)%nat ∧ (j < 5)%nat ∧ (ch < 3)%nat ∧ k = (15 * i + 3 * j + ch)%nat.
Proof.
  intros Hk. exists ((k / 3) / 5)%nat, ((k / 3) mod 5)%nat, (k mod 3)%nat.
  pose proof (Nat.div_mod_eq k 3). pose proof (Nat.div_mod_eq (k / 3) 5).
  pose proof (Nat.mod_upper_bound k 3). pose proof (Nat.mod_upper_bound (k / 3) 5).
  lia.
Qed.

(** X4: [local_observation] reads the grid only inside the window: two
    grids of shape (10,10,3) that agree on the rows and columns of the window
    around the agent give the same observation, whatever they hold
    elsewhere. *)
Theorem local_observation_reads_only_window (grid1 grid2 : np.ndarray) (s : StepInfo) :
  np.shape grid1 = (10%nat, 10%nat, 3%nat) → np.wf grid1 →
  np.shape grid2 = (10%nat, 10%nat, 3%nat) → np.wf grid2 →
  0 ≤ si_agent_pos s ≤ 99 →
  (∀ r c ch : nat,
     (Z.to_nat (row_min (si_agent_pos s)) ≤ r < Z.to_nat (row_max (si_agent_pos s)))%nat →
     (Z.to_nat (col_min (si_agent_pos s)) ≤ c < Z.to_nat (col_max (si_agent_pos s)))%nat →
     (ch < 3)%nat →
     np.item grid1 r c ch = np.item grid2 r c ch) →
  local_observation grid1 (to_dict s) = local_observation grid2 (to_dict s).
Proof.
  intros Hs1 Hwf1 Hs2 Hwf2 Hp Hsame.
  destruct (padded_patch_in_range grid1 _ Hs1 Hwf1 Hp) as (pad1 & Hpad1 & Hsh1 & Hcell1).
  destruct (padded_patch_in_range grid2 _ Hs2 Hwf2 Hp) as (pad2 & Hpad2 & Hsh2 & Hcell2).
  rewrite !local_observation_unfold, Hpad1, Hpad2.
  assert (np.flatten pad1 = np.flatten pad2) as ->; [|done].
  pose proof (flatten_length 5 5 3 pad1 Hsh1) as Hl1.
  pose proof (flatten_length 5 5 3 pad2 Hsh2) as Hl2.
  apply list_eq. intros k.
  destruct (decide (k < 75)%nat) as [Hk|Hk].
  - destruct (flat_index_split k Hk) as (i & j & ch & Hi & Hj & Hch & ->).
    replace (15 * i + 3 * j + ch)%nat with ((i * 5 + j) * 3 + ch)%nat by lia.
    rewrite !(flatten_lookup 5 5 3) by done.
    rewrite Hcell1, Hcell2 by done. unfold patch_cell.
    destruct (window_bounds _ Hp) as [(? & ? & ? & ?) (? & ? & ? & ?)].
    destruct (Nat.ltb_spec i (Z.to_nat (row_max (si_agent_pos s) - row_min (si_agent_pos s))));
      [|done].
    destruct (Nat.ltb_spec j (Z.to_nat (col_max (si_agent_pos s) - col_min (si_agent_pos s))));
      [|done].
    cbn [andb]. apply Hsame; lia.
  - by rewrite !lookup_ge_None_2 by lia.
Qed.

(** X5: an enemy on the grid that costs the proximity penalty (Manhattan
    distance below 3 from the agent) lies inside the agent's window, and in
    every observation [local_observation] returns its cell is at buffer row
    [y - row_min] and column [x - col_min]. The call returns when both
    scalars lie in [0,255]. *)
Theorem penalised_enemy_is_inside_window (grid : np.ndarray) (s : StepInfo) (e : Enemy.t) :
  np.shape grid = (10%nat, 10%nat, 3%nat) → np.wf grid →
  0 ≤ si_agent_pos s ≤ 99 →
  0 ≤ Enemy.x e ≤ 9 → 0 ≤ Enemy.y e ≤ 9 →
  manhattan (si_agent_pos s) e < 3 →
  let p := si_agent_pos s in
  let i := Z.to_nat (Enemy.y e - row_min p) in
  let j := Z.to_nat (Enemy.x e - col_min p) in
  (row_min p ≤ Enemy.y e < row_max p ∧ col_min p ≤ Enemy.x e < col_max p) ∧
  (∀ obs : list Z,
     local_observation grid (to_dict s) = Ok obs →
     ∀ ch : nat, (ch < 3)%nat →
       obs !! (15 * i + 3 * j + ch)%nat =
         np.item grid (Z.to_nat (Enemy.y e)) (Z.to_nat (Enemy.x e)) ch) ∧
  (0 ≤ si_steps_remaining s ≤ 255 → 0 ≤ si_cells_remaining s ≤ 255 →
     ∃ obs : list Z, local_observation grid (to_dict s) = Ok obs).
Proof.
  intros Hs Hwf Hp Hx Hy Hnear p i j.
  assert (0 ≤ p / 10 < 10)
    by (split; [apply Z.div_pos|apply Z.div_lt_upper_bound]; lia).
  assert (0 ≤ p mod 10 < 10) by (apply Z.mod_pos_bound; lia).
  unfold manhattan in Hnear. fold p in Hnear.
  assert (Hin : row_min p ≤ Enemy.y e < row_max p ∧ col_min p ≤ Enemy.x e < col_max p)
    by (unfold row_min, row_max, col_min, col_max; lia).
  split; [exact Hin|]. split.
  - intros obs Hrun ch Hch.
    destruct (window_bounds p Hp) as [(? & ? & ? & ?) (? & ? & ? & ?)].
    rewrite (local_observation_patch_cells grid s obs Hs Hwf Hp Hrun) by lia.
    unfold patch_cell. fold p.
    destruct (Nat.ltb_spec i (Z.to_nat (row_max p - row_min p))); [|lia].
    destruct (Nat.ltb_spec j (Z.to_nat (col_max p - col_min p))); [|lia].
    cbn [andb]. f_equal; lia.
  - intros Hst Hce. apply local_observation_returns; auto.
Qed.

(** ** The proximity policy and the enemy list *)

Lemma near_count_filter (p : Z) (en : list Enemy.t) :
  near_count p (filter (λ e, manhattan p e < 3) en) = near_count p en.
Proof.
  unfold near_count. induction en as [|e en IH]; [done|].
  rewrite filter_cons. destruct (decide (manhattan p e < 3)) as [Hnear|Hfar].
  - rewrite filter_cons, decide_True by done. cbn [length]. by rewrite IH.
  - done.
Qed.

Lemma near_count_cons_near (p : Z) (e : Enemy.t) (en : list Enemy.t) :
  manhattan p e < 3 → near_count p (e :: en) = S (near_count p en).
Proof. intros Hnear. unfold near_count. by rewrite filter_cons, decide_True. Qed.

(** X6: [reward_proximity] sees the enemy list only through the number of
    enemies at distance below 3: two complete records with the same flags
    and the same number of such enemies get the same reward, so reordering
    the list or dropping every enemy at distance 3 or more changes nothing
    (nor do [steps_remaining] and [cells_remaining]). Each enemy at distance
    below 3 costs one further subtraction of 0.1 before the game-over
    penalty, an enemy listed twice costs two. *)
Theorem reward_proximity_counts_near_enemies :
  (∀ p st ce st' ce' covered over (en en' : list Enemy.t),
     near_count p en = near_count p en' →
     reward_proximity (to_dict (mk_StepInfo p st ce covered over en)) =
     reward_proximity (to_dict (mk_StepInfo p st' ce' covered over en'))) ∧
  (∀ p st ce st' ce' covered over (en en' : list Enemy.t),
     en ≡ₚ en' →
     reward_proximity (to_dict (mk_StepInfo p st ce covered over en)) =
     reward_proximity (to_dict (mk_StepInfo p st' ce' covered over en'))) ∧
  (∀ p st ce covered over (en : list Enemy.t),
     reward_proximity (to_dict (mk_StepInfo p st ce covered over en)) =
     reward_proximity
       (to_dict (mk_StepInfo p st ce covered over
                   (filter (λ e, manhattan p e < 3) en)))) ∧
  (∀ p st ce covered over (e : Enemy.t) (en : list Enemy.t),
     manhattan p e < 3 →
     ∃ r : float,
       reward_proximity (to_dict (mk_StepInfo p st ce covered over en)) =
         Ok (if over then r - 5.0 else r)%float ∧
       reward_proximity (to_dict (mk_StepInfo p st ce covered over (e :: en))) =
         Ok (if over then r - 0.1 - 5.0 else r - 0.1)%float ∧
       reward_proximity (to_dict (mk_StepInfo p st ce covered over (e :: e :: en))) =
         Ok (if over then r - 0.1 - 0.1 - 5.0 else r - 0.1 - 0.1)%float) ∧
  (∀ p st ce covered over (e : Enemy.t) (en : list Enemy.t),
     ¬ manhattan p e < 3 →
     reward_proximity (to_dict (mk_StepInfo p st ce covered over (e :: en))) =
     reward_proximity (to_dict (mk_StepInfo p st ce covered over en))).
Proof.
  split_and!.
  - intros p st ce st' ce' covered over en en' Hcount.
    rewrite !reward_proximity_run. cbn [si_new_cell_covered si_agent_pos
      si_enemies si_game_over]. by rewrite Hcount.
  - intros p st ce st' ce' covered over en en' Hperm.
    rewrite !reward_proximity_run. cbn [si_new_cell_covered si_agent_pos
      si_enemies si_game_over]. unfold near_count. by rewrite Hperm.
  - intros p st ce covered over en. rewrite !reward_proximity_run.
    cbn [si_new_cell_covered si_agent_pos si_enemies si_game_over].
    by rewrite near_count_filter.
  - intros p st ce covered over e en Hnear.
    exists (Nat.iter (near_count p en) (λ r, r - 0.1)%float
              (0.0 + term covered 1.0 + (-0.01))%float).
    rewrite !reward_proximity_run.
    cbn [si_new_cell_covered si_agent_pos si_enemies si_game_over].
    rewrite !near_count_cons_near by done. unfold proximity_total.
    cbn [Nat.iter nat_rect]. by destruct over.
  - intros p st ce covered over e en Hfar. rewrite !reward_proximity_run.
    cbn [si_new_cell_covered si_agent_pos si_enemies si_game_over].
    unfold near_count. by rewrite filter_cons, decide_False.
Qed.

(** ** Mode strings the module does not know *)

Lemma reward_keeps_CURRENT_OBS_MODE (info : info_dict) (g : globals) :
  CURRENT_OBS_MODE (reward info g).2 = CURRENT_OBS_MODE g.
Proof.
  rewrite reward_unfold. cbv zeta.
  destruct (String.eqb (CURRENT_REWARD_MODE g) "basic"); [done|].
  destruct (String.eqb (CURRENT_REWARD_MODE g) "time_pressure"); [|done].
  destruct info as [p st ce covered over en].
  unfold reward_time_pressure. run_hook.
  destruct covered; [|done]. destruct over; [|done]. by destruct p.
Qed.

(** X7: the hooks never reject a mode string. Any reward mode other than
    "basic" and "time_pressure" is treated as "proximity", and any
    observation mode other than "local" is treated as "global", by
    [observation] and by [observation_space] alike; the comparison is exact,
    so "Local" is not "local". *)
Theorem unknown_modes_fall_through (info : info_dict) (grid : np.ndarray) (g : globals) :
  (CURRENT_REWARD_MODE g ≠ "basic" → CURRENT_REWARD_MODE g ≠ "time_pressure" →
     reward info g = (reward_proximity info, set_LAST_INFO (Some info) g)) ∧
  (CURRENT_OBS_MODE g ≠ "local" →
     observation grid g = (Ok (np.flatten grid), g) ∧
     observation_space g = (Ok global_observation_space, g)).
Proof.
  split.
  - intros Hb Ht. rewrite reward_unfold. cbv zeta.
    apply String.eqb_neq in Hb, Ht. by rewrite Hb, Ht.
  - intros Hl. apply String.eqb_neq in Hl. rewrite observation_unfold, Hl.
    split; [done|]. unfold observation_space. run_hook. by rewrite Hl.
Qed.

(** ** The last-position slot *)

Lemma reward_time_pressure_failure_keeps_globals (info : info_dict) (g : globals) (e : exn) :
  (reward_time_pressure info g).1 = Raise e → (reward_time_pressure info g).2 = g.
Proof.
  destruct info as [p st ce covered over en].
  unfold reward_time_pressure. run_hook.
  destruct covered; [|done]. destruct over; [|done]. by destruct p.
Qed.

Lemma reward_time_pressure_LAST_AGENT_POS (info : info_dict) (g : globals) :
  is_Some (LAST_AGENT_POS g) → is_Some (LAST_AGENT_POS (reward_time_pressure info g).2).
Proof.
  destruct info as [p st ce covered over en].
  unfold reward_time_pressure. run_hook.
  destruct covered; [|done]. destruct over; [|done]. by destruct p.
Qed.

Lemma exec_keeps_LAST_AGENT_POS (o : op) (g : globals) :
  is_Some (LAST_AGENT_POS g) → is_Some (LAST_AGENT_POS (exec o g)).
Proof.
  intros Hg. destruct o; cbn [exec]; try done.
  - by apply reward_time_pressure_LAST_AGENT_POS.
  - by rewrite observation_space_keeps_globals.
  - by rewrite observation_keeps_globals.
  - rewrite reward_unfold. cbv zeta.
    destruct (String.eqb (CURRENT_REWARD_MODE g) "basic"); [done|].
    destruct (String.eqb (CURRENT_REWARD_MODE g) "time_pressure"); [|done].
    by apply reward_time_pressure_LAST_AGENT_POS.
Qed.

(** X8: the last-position slot is never emptied: once a position is
    recorded, every function of the module and every assignment of a mode
    flag leaves one recorded, over any sequence of operations. [reward] in a
    mode other than "time_pressure" leaves the slot as it is, and a
    [reward_time_pressure] call that raises changes no global at all. So the
    stuck comparison is skipped only before the first time-pressure
    evaluation of the process, not at the start of later episodes. *)
Theorem last_agent_pos_never_cleared :
  (∀ (ops : list op) (g : globals),
     is_Some (LAST_AGENT_POS g) → is_Some (LAST_AGENT_POS (run ops g))) ∧
  (∀ (info : info_dict) (g : globals),
     CURRENT_REWARD_MODE g ≠ "time_pressure" →
     LAST_AGENT_POS (reward info g).2 = LAST_AGENT_POS g) ∧
  (∀ (info : info_dict) (g : globals) (e : exn),
     (reward_time_pressure info g).1 = Raise e →
     (reward_time_pressure info g).2 = g).
Proof.
  split_and!.
  - intros ops. induction ops as [|o ops IH]; intros g Hg; [done|].
    apply IH. by apply exec_keeps_LAST_AGENT_POS.
  - intros info g Ht. apply String.eqb_neq in Ht.
    rewrite reward_unfold. cbv zeta. rewrite Ht.
    by destruct (String.eqb (CURRENT_REWARD_MODE g) "basic").
  - apply reward_time_pressure_failure_keeps_globals.
Qed.

Lemma calls_reward_time_pressure (steps : list StepInfo) (g : globals) :
  calls reward_time_pressure (to_dict <$> steps) g =
    (Ok (zip_with
           (λ prev s,
              time_pressure_sum (si_new_cell_covered s) (si_game_over s)
                (bool_decide (prev = Some (si_agent_pos s))))
           (LAST_AGENT_POS g :: (Some ∘ si_agent_pos <$> steps)) steps),
     foldl (λ g s, set_LAST_AGENT_POS (Some (si_agent_pos s)) g) g steps).
Proof.
  revert g. induction steps as [|s steps IH]; intros g; [done|].
  cbn [fmap list_fmap calls]. unfold mbind at 1, M_bind at 1.
  rewrite reward_time_pressure_run.
  unfold mbind at 1, M_bind at 1. rewrite IH. reflexivity.
Qed.

(** X9: over consecutive [reward_time_pressure] calls on complete records,
    the stuck penalty of a call depends on the call just before it and on
    nothing else: the k-th reward carries the -0.05 exactly when the k-th
    position equals the (k-1)-th (for the first call, the position left in
    the slot, if any), and afterwards the slot holds the last position. *)
Theorem stuck_penalty_along_a_trajectory (steps : list StepInfo) (g : globals) :
  (calls reward_time_pressure (to_dict <$> steps) g).1 =
    Ok (zip_with
          (λ prev s,
             time_pressure_sum (si_new_cell_covered s) (si_game_over s)
               (bool_decide (prev = Some (si_agent_pos s))))
          (LAST_AGENT_POS g :: (Some ∘ si_agent_pos <$> steps)) steps) ∧
  LAST_AGENT_POS (calls reward_time_pressure (to_dict <$> steps) g).2 =
    default (LAST_AGENT_POS g) (last (Some ∘ si_agent_pos <$> steps)).
Proof.
  rewrite calls_reward_time_pressure. split; [done|]. cbn [snd].
  revert g. induction steps as [|s steps IH]; intros g; [done|].
  cbn [foldl]. rewrite IH. cbn [LAST_AGENT_POS set_LAST_AGENT_POS].
  destruct steps as [|s' steps]; [done|].
  cbn [fmap list_fmap]. rewrite last_cons_cons.
  destruct (last (_ :: _)) as [q|] eqn:Hlast; [done|].
  by apply last_None in Hlast.
Qed.

(** ** A record the reward hook accepted can break the next observation *)

(** X10: [reward] caches the record before any key is read, and
    [reward_basic] never reads "agent_pos". So in "basic" mode a record
    without "agent_pos" is rewarded normally, and the next [observation] in
    "local" mode raises [KeyError "agent_pos"] on every grid; the same
    happens after a [reward] call that itself raised. *)
Theorem record_without_agent_pos_breaks_next_observation
  (info : info_dict) (grid : np.ndarray) (g : globals) :
  agent_pos info = None →
  CURRENT_OBS_MODE g = "local" →
  (observation grid (reward info g).2).1 = Raise (KeyError "agent_pos") ∧
  (CURRENT_REWARD_MODE g = "basic" →
     ∀ covered over : bool,
       new_cell_covered info = Some covered → game_over info = Some over →
       (reward info g).1 = Ok (term covered 1.0 + term over (-1.0))%float).
Proof.
  intros Hpos Hmode. split.
  - rewrite observation_unfold, reward_keeps_CURRENT_OBS_MODE, Hmode.
    rewrite reward_sets_LAST_INFO. cbn [String.eqb Ascii.eqb Bool.eqb fst].
    by rewrite local_observation_unfold_dict, Hpos.
  - intros Hbasic covered over Hc Ho. rewrite reward_unfold. cbv zeta.
    rewrite Hbasic. cbn [String.eqb Ascii.eqb Bool.eqb fst].
    unfold reward_basic. rewrite Hc, Ho. run_hook.
    by destruct covered, over.
Qed.

(** ** Which record the observation uses *)

(** X11: in "local" mode [observation] encodes the record of the most
    recent [reward] call: after any sequence of operations whose last
    [reward] call was given [info], with anything before it and no [reward]
    call after it, the cache holds [info] and [observation] is
    [local_observation] on it. *)
Theorem observation_uses_latest_reward_info
  (before after : list op) (info : info_dict) (g : globals) :
  forallb (λ o, negb (is_reward_call o)) after = true →
  let g' := run (before ++ call_reward info :: after) g in
  LAST_INFO g' = Some info ∧
  ∀ grid : np.ndarray,
    CURRENT_OBS_MODE g' = "local" →
    observation grid g' = (local_observation grid info, g').
Proof.
  intros Hafter g'.
  assert (Hc : LAST_INFO g' = Some info).
  { unfold g'. rewrite run_app. cbn [run foldl].
    fold (run after (exec (call_reward info) (run before g))).
    rewrite run_without_reward by done. by rewrite exec_LAST_INFO. }
  split; [done|]. intros grid Hmode.
  by rewrite observation_unfold, Hmode, Hc.
Qed.

(** * The earlier variant of the module *)

(** X12: in the earlier variant [observation] returns the full-grid flatten
    whatever the observation mode, so on a grid of shape (10,10,3) it has 300
    elements even in "local" mode, where [observation_space] declares 77.
    The current [observation] returns the same vector whenever it does not
    encode the cache: in every mode other than "local", and in "local" mode
    with an empty cache. *)
Theorem legacy_observation_ignores_mode
  (grid : np.ndarray) (lg : Legacy.globals) (g : globals) :
  np.shape grid = (10%nat, 10%nat, 3%nat) → np.wf grid →
  Legacy.observation grid lg = np.flatten grid ∧
  length (Legacy.observation grid lg) = 300%nat ∧
  (Legacy.CURRENT_OBS_MODE lg = "local" →
     box_shape (Legacy.observation_space lg) = 77%nat) ∧
  (CURRENT_OBS_MODE g ≠ "local" ∨ LAST_INFO g = None →
     (observation grid g).1 = Ok (Legacy.observation grid lg)).
Proof.
  intros Hs Hwf.
  assert (Hobs : Legacy.observation grid lg = np.flatten grid)
    by (unfold Legacy.observation; by destruct (String.eqb _ _)).
  rewrite Hobs. split_and!.
  - done.
  - unfold np.wf in Hwf. rewrite Hs in Hwf. by apply (flatten_length 10 10 3).
  - intros Hl. unfold Legacy.observation_space. by rewrite Hl.
  - intros Hg. rewrite observation_unfold.
    destruct (String.eqb_spec (CURRENT_OBS_MODE g) "local") as [Hl|Hl]; [|done].
    destruct Hg as [Hg|Hg]; [by destruct Hg|]. by rewrite Hg.
Qed.

Lemma legacy_reward_time_pressure_value (s : StepInfo) :
  Legacy.reward_time_pressure (to_dict s) =
    Ok (time_pressure_sum (si_new_cell_covered s) (si_game_over s) false).
Proof. by destruct s as [p st ce [] [] en]. Qed.

(** X13: how the reward policies of the two variants relate. [reward_basic]
    is the same function. In the earlier variant every mode other than
    "basic" gives one and the same policy (+1.0 covered, -0.01, -5.0 game
    over). On a complete record the current [reward_time_pressure] returns
    that value when the stuck penalty does not apply and that value minus
    0.05 when it does, and the current [reward_proximity] returns that value
    when no enemy is at distance below 3. *)
Theorem legacy_rewards_against_current :
  (∀ info : info_dict, Legacy.reward_basic info = reward_basic info) ∧
  (∀ (info : info_dict) (lg : Legacy.globals),
     Legacy.CURRENT_REWARD_MODE lg ≠ "basic" →
     Legacy.reward info lg = Legacy.reward_proximity info) ∧
  (∀ (s : StepInfo) (g : globals),
     ∃ r : float,
       Legacy.reward_time_pressure (to_dict s) = Ok r ∧
       (reward_time_pressure (to_dict s) g).1 =
         Ok (if stuck g (si_agent_pos s) then (r - 0.05)%float else r)) ∧
  (∀ s : StepInfo,
     near_count (si_agent_pos s) (si_enemies s) = 0%nat →
     reward_proximity (to_dict s) = Legacy.reward_proximity (to_dict s)).
Proof.
  split_and!.
  - done.
  - intros info lg Hb. apply String.eqb_neq in Hb. unfold Legacy.reward.
    rewrite Hb.
    destruct (String.eqb (Legacy.CURRENT_REWARD_MODE lg) "time_pressure");
      reflexivity.
  - intros s g. eexists. split; [apply legacy_reward_time_pressure_value|].
    rewrite reward_time_pressure_run. cbn [fst].
    by destruct (stuck g (si_agent_pos s)), (si_new_cell_covered s), (si_game_over s).
  - intros s Hn. rewrite reward_proximity_run, Hn.
    by destruct s as [p st ce [] [] en].
Qed.

Lemma legacy_rewards_against_current_witness :
  Legacy.reward (to_dict (quiet_step 42)) (Legacy.mk_globals "global" "time_pressure") =
    Legacy.reward_proximity (to_dict (quiet_step 42)) ∧
  reward_proximity (to_dict (quiet_step 42)) =
    Legacy.reward_proximity (to_dict (quiet_step 42)).
Proof.
  destruct legacy_rewards_against_current as (_ & Hmode & _ & Hprox).
  split; [by apply Hmode|by apply Hprox].
Defined.

(** * Which keys each function reads *)

(** X14: each function looks at a fixed set of keys and at nothing else in
    the record. [local_observation] depends on "agent_pos",
    "steps_remaining" and "cells_remaining" only; [reward_basic] on
    "new_cell_covered" and "game_over"; [reward_time_pressure] on those two
    and "agent_pos"; [reward_proximity] on those three and "enemies". Two
    records that agree on the keys a function reads give the same result,
    and for [reward_time_pressure] the same globals, even if one of them
    lacks every other key. *)
Theorem functions_read_only_their_keys :
  (∀ (grid : np.ndarray) (info info' : info_dict),
     agent_pos info = agent_pos info' →
     steps_remaining info = steps_remaining info' →
     cells_remaining info = cells_remaining info' →
     local_observation grid info = local_observation grid info') ∧
  (∀ info info' : info_dict,
     new_cell_covered info = new_cell_covered info' →
     game_over info = game_over info' →
     reward_basic info = reward_basic info') ∧
  (∀ (info info' : info_dict) (g : globals),
     new_cell_covered info = new_cell_covered info' →
     game_over info = game_over info' →
     agent_pos info = agent_pos info' →
     reward_time_pressure info g = reward_time_pressure info' g) ∧
  (∀ info info' : info_dict,
     new_cell_covered info = new_cell_covered info' →
     game_over info = game_over info' →
     agent_pos info = agent_pos info' →
     enemies info = enemies info' →
     reward_proximity info = reward_proximity info').
Proof.
  split_and!.
  - intros grid info info' Hp Hs Hc.
    by rewrite !local_observation_unfold_dict, Hp, Hs, Hc.
  - intros [p st ce covered over en] [p' st' ce' covered' over' en'].
    cbn [new_cell_covered game_over]. by intros <- <-.
  - intros [p st ce covered over en] [p' st' ce' covered' over' en'] g.
    cbn [new_cell_covered game_over agent_pos]. by intros <- <- <-.
  - intros [p st ce covered over en] [p' st' ce' covered' over' en'].
    cbn [new_cell_covered game_over agent_pos enemies]. by intros <- <- <- <-.
Qed.

(** X15: a reward policy returns exactly when the keys it reads are present,
    and otherwise raises [KeyError] for the first missing key in the order
    it reads them: "new_cell_covered", "game_over" for [reward_basic];
    "new_cell_covered", "game_over", "agent_pos" for [reward_time_pressure];
    "new_cell_covered", "agent_pos", "enemies", "game_over" for
    [reward_proximity]. *)
Theorem reward_policies_on_missing_keys (info : info_dict) (g : globals) :
  (is_ok (reward_basic info) =
     bool_decide (is_Some (new_cell_covered info) ∧ is_Some (game_over info))) ∧
  (is_ok (reward_time_pressure info g).1 =
     bool_decide (is_Some (new_cell_covered info) ∧ is_Some (game_over info)
                  ∧ is_Some (agent_pos info))) ∧
  (is_ok (reward_proximity info) =
     bool_decide (is_Some (new_cell_covered info) ∧ is_Some (agent_pos info)
                  ∧ is_Some (enemies info) ∧ is_Some (game_over info))) ∧
  (new_cell_covered info = None →
     reward_basic info = Raise (KeyError "new_cell_covered") ∧
     (reward_time_pressure info g).1 = Raise (KeyError "new_cell_covered") ∧
     reward_proximity info = Raise (KeyError "new_cell_covered")) ∧
  (is_Some (new_cell_covered info) → game_over info = None →
     reward_basic info = Raise (KeyError "game_over") ∧
     (reward_time_pressure info g).1 = Raise (KeyError "game_over")) ∧
  (is_Some (new_cell_covered info) → agent_pos info = None →
     reward_proximity info = Raise (KeyError "agent_pos") ∧
     (is_Some (game_over info) →
        (reward_time_pressure info g).1 = Raise (KeyError "agent_pos"))) ∧
  (is_Some (new_cell_covered info) → is_Some (agent_pos info) →
     enemies info = None →
     reward_proximity info = Raise (KeyError "enemies")) ∧
  (is_Some (new_cell_covered info) → is_Some (agent_pos info) →
     is_Some (enemies info) → game_over info = None →
     reward_proximity info = Raise (KeyError "game_over")).
Proof.
  destruct info as [p st ce covered over en].
  unfold reward_basic, reward_time_pressure, reward_proximity.
  cbn [new_cell_covered game_over agent_pos enemies].
  split_and!.
  - destruct covered, over; by run_hook.
  - destruct covered, over, p; by run_hook.
  - destruct covered, p, en, over; by run_hook.
  - by intros ->.
  - intros [c ->] ->. by run_hook.
  - intros [c ->] ->. split; [by run_hook|]. intros [o ->]. by run_hook.
  - intros [c ->] [q ->] ->. by run_hook.
  - intros [c ->] [q ->] [l ->] ->. by run_hook.
Qed.

End numpy_cast.

(** * Instances

    The statements above at concrete inputs, for the conversion that raises
    (a Python [int] under numpy 2.0 or later) unless said otherwise. *)

Lemma local_observation_window_witness :
  ∃ obs : list Z,
    local_observation np.cast_raises sample_grid (to_dict (quiet_step 99)) = Ok obs ∧
    obs !! 0%nat = Some 231 ∧ obs !! 74%nat = Some 0.
Proof.
  destruct (local_observation_window np.cast_raises sample_grid (quiet_step 99))
    as (_ & padded & _ & _ & _ & H99 & Hobs & Hret);
    [reflexivity|exact sample_grid_wf|simpl; lia|].
  destruct Hret as [obs Hrun]; [right; simpl; lia|].
  exists obs. split_and!; [exact Hrun| |].
  - etransitivity; [apply (Hobs obs Hrun 0%nat 0%nat 0%nat); lia|].
    apply (H99 eq_refl 0%nat 0%nat 0%nat); lia.
  - etransitivity; [apply (Hobs obs Hrun 4%nat 4%nat 2%nat); lia|].
    apply (H99 eq_refl 4%nat 4%nat 2%nat); lia.
Defined.

Lemma local_observation_length_and_scalars_witness :
  (∃ obs : list Z,
     local_observation np.cast_raises sample_grid (to_dict (quiet_step 42)) = Ok obs ∧
     length obs = 77%nat ∧
     obs !! 75%nat = Some 100 ∧ obs !! 76%nat = Some 40) ∧
  local_observation np.cast_raises sample_grid (to_dict long_episode_step) =
    Raise OverflowError.
Proof.
  split.
  - destruct (local_observation_length_and_scalars np.cast_raises sample_grid
                (quiet_step 42)) as (_ & H & _);
      [reflexivity|exact sample_grid_wf|simpl; lia|].
    destruct H as (obs & Hrun & Hlen & H75 & H76 & _); [simpl; lia|simpl; lia|].
    exists obs. split_and!; [exact Hrun|exact Hlen|exact H75|exact H76].
  - destruct (local_observation_length_and_scalars np.cast_raises sample_grid
                long_episode_step) as (_ & _ & _ & H);
      [reflexivity|exact sample_grid_wf|simpl; lia|].
    apply H; [reflexivity|]. left. simpl. lia.
Defined.

(** C3 (as stated, refuted): with 300 steps remaining the value is not
    clamped to 255: where the conversion wraps, element 75 is 44, and where
    it raises, the call raises [OverflowError] and returns no vector. *)
Lemma local_observation_scalar_not_clamped :
  (∃ obs : list Z,
     local_observation np.cast_wraps sample_grid (to_dict long_episode_step) = Ok obs ∧
     length obs = 77%nat ∧
     obs !! 75%nat = Some 44 ∧
     obs !! 75%nat ≠ Some (clamp_uint8 (si_steps_remaining long_episode_step))) ∧
  local_observation np.cast_raises sample_grid (to_dict long_episode_step) =
    Raise OverflowError ∧
  clamp_uint8 (si_steps_remaining long_episode_step) = 255.
Proof.
  split_and!; [|reflexivity|reflexivity].
  eexists. split; [vm_compute; reflexivity|].
  split_and!; [reflexivity|reflexivity|]. vm_compute. discriminate.
Qed.



(** C7 (as stated, refuted): in "local" mode with a cached record whose
    [steps_remaining] is 300, [observation] raises [OverflowError] where the
    conversion raises; no 77-element vector is returned. *)
Lemma observation_raises_on_cached_large_scalar :
  let g := set_LAST_INFO (Some (to_dict long_episode_step))
             (set_CURRENT_OBS_MODE "local" initial_globals) in
  CURRENT_OBS_MODE g = "local" ∧
  LAST_INFO g = Some (to_dict long_episode_step) ∧
  (observation np.cast_raises sample_grid g).1 = Raise OverflowError.
Proof. cbv zeta. split_and!; reflexivity. Qed.

Lemma observation_by_mode_witness :
  (observation np.cast_raises sample_grid
     (set_CURRENT_OBS_MODE "local" initial_globals)).1
    = Ok (np.flatten sample_grid) ∧
  length (np.flatten sample_grid) = 300%nat ∧
  ∃ obs : list Z,
    (observation np.cast_raises sample_grid
       (set_LAST_INFO (Some (to_dict (quiet_step 42)))
          (set_CURRENT_OBS_MODE "local" initial_globals))).1 = Ok obs ∧
    length obs = 77%nat.
Proof.
  split_and!.
  - destruct (observation_by_mode np.cast_raises sample_grid
                (set_CURRENT_OBS_MODE "local" initial_globals)
                eq_refl sample_grid_wf) as (_ & _ & _ & H & _).
    destruct (H eq_refl eq_refl) as [-> _]. reflexivity.
  - destruct (observation_by_mode np.cast_raises sample_grid initial_globals
                eq_refl sample_grid_wf) as (_ & _ & _ & _ & H).
    apply (H eq_refl).
  - destruct (observation_by_mode np.cast_raises sample_grid
                (set_LAST_INFO (Some (to_dict (quiet_step 42)))
                   (set_CURRENT_OBS_MODE "local" initial_globals))
                eq_refl sample_grid_wf) as (_ & _ & H & _).
    destruct (H eq_refl (quiet_step 42) eq_refl) as (obs & -> & Hl);
      [simpl; lia|simpl; lia|simpl; lia|].
    by exists obs.
Defined.

Lemma cache_never_cleared_witness :
  let trace :=
    [assign_CURRENT_OBS_MODE "local"; call_observation sample_grid;
     call_reward (to_dict (quiet_step 42)); call_observation sample_grid;
     assign_CURRENT_REWARD_MODE "time_pressure";
     call_reward_time_pressure (to_dict (quiet_step 43));
     call_observation_space] in
  falls_back (run np.cast_raises [assign_CURRENT_OBS_MODE "local"] initial_globals) = true ∧
  falls_back (run np.cast_raises trace initial_globals) = false ∧
  LAST_INFO (run np.cast_raises trace initial_globals) = Some (to_dict (quiet_step 42)).
Proof.
  cbv zeta. split; [reflexivity|].
  destruct (cache_never_cleared np.cast_raises) as (_ & _ & _ & H & _).
  destruct (H [assign_CURRENT_OBS_MODE "local"; call_observation sample_grid]
              [call_observation sample_grid;
               assign_CURRENT_REWARD_MODE "time_pressure";
               call_reward_time_pressure (to_dict (quiet_step 43));
               call_observation_space]
              (to_dict (quiet_step 42)) initial_globals) as [Hfb _].
  split; [exact Hfb|reflexivity].
Defined.

Lemma observation_within_box_bounds_witness :
  ∃ obs : list Z,
    (observation np.cast_raises sample_grid
       (set_LAST_INFO (Some (to_dict (quiet_step 42)))
          (set_CURRENT_OBS_MODE "local" initial_globals))).1 = Ok obs ∧
    Forall (λ v, 0 ≤ v ≤ 255) obs.
Proof.
  eexists. split; [vm_compute; reflexivity|].
  eapply proj1, (observation_within_box_bounds np.cast_raises sample_grid
    (set_LAST_INFO (Some (to_dict (quiet_step 42)))
       (set_CURRENT_OBS_MODE "local" initial_globals)));
    [exact sample_grid_uint8|vm_compute; reflexivity].
Defined.

Lemma observation_length_vs_declared_space_witness :
  let g := set_CURRENT_OBS_MODE "local" initial_globals in
  falls_back g = true ∧
  box_shape local_observation_space = 77%nat ∧
  length (np.flatten sample_grid) = 300%nat.
Proof.
  cbv zeta. split; [reflexivity|].
  apply (observation_length_vs_declared_space np.cast_raises sample_grid
           (set_CURRENT_OBS_MODE "local" initial_globals)
           local_observation_space (np.flatten sample_grid)
           eq_refl sample_grid_wf eq_refl eq_refl).
  reflexivity.
Defined.

Lemma agent_cell_position_in_patch_witness :
  ∃ obs : list Z,
    local_observation np.cast_raises sample_grid (to_dict (quiet_step 0)) = Ok obs ∧
    obs !! 0%nat = np.item sample_grid 0 0 0.
Proof.
  destruct (agent_cell_position_in_patch np.cast_raises sample_grid (quiet_step 0))
    as (Hcell & Hret); [reflexivity|exact sample_grid_wf|simpl; lia|].
  destruct Hret as [obs Hrun]; [simpl; lia|simpl; lia|].
  exists obs. split; [exact Hrun|]. apply (Hcell obs Hrun 0%nat). lia.
Defined.

Lemma local_observation_reads_only_window_witness :
  local_observation np.cast_raises sample_grid (to_dict (quiet_step 0)) =
  local_observation np.cast_raises corner_only_grid (to_dict (quiet_step 0)).
Proof.
  apply local_observation_reads_only_window;
    [reflexivity|exact sample_grid_wf|reflexivity
    |apply (bool_decide_unpack _); vm_compute; exact I|simpl; lia|].
  intros r c ch Hr Hc Hch.
  change (Z.to_nat (row_min (si_agent_pos (quiet_step 0)))) with 0%nat in Hr.
  change (Z.to_nat (row_max (si_agent_pos (quiet_step 0)))) with 3%nat in Hr.
  change (Z.to_nat (col_min (si_agent_pos (quiet_step 0)))) with 0%nat in Hc.
  change (Z.to_nat (col_max (si_agent_pos (quiet_step 0)))) with 3%nat in Hc.
  assert (r = 0 ∨ r = 1 ∨ r = 2)%nat as Hr' by lia.
  assert (c = 0 ∨ c = 1 ∨ c = 2)%nat as Hc' by lia.
  assert (ch = 0 ∨ ch = 1 ∨ ch = 2)%nat as Hch' by lia.
  destruct Hr' as [->|[->| ->]], Hc' as [->|[->| ->]], Hch' as [->|[->| ->]];
    reflexivity.
Defined.

Lemma penalised_enemy_is_inside_window_witness :
  ∃ obs : list Z,
    local_observation np.cast_raises sample_grid (to_dict two_enemies_step) = Ok obs ∧
    obs !! (15 * 3 + 3 * 2 + 0)%nat = np.item sample_grid 6 5 0.
Proof.
  destruct (penalised_enemy_is_inside_window np.cast_raises sample_grid
              two_enemies_step (Enemy.mk 5 6))
    as (_ & Hcell & Hret);
    [reflexivity|exact sample_grid_wf|simpl; lia|simpl; lia|simpl; lia|reflexivity|].
  destruct Hret as [obs Hrun]; [simpl; lia|simpl; lia|].
  exists obs. split; [exact Hrun|]. apply (Hcell obs Hrun 0%nat). lia.
Defined.

Lemma unknown_modes_fall_through_witness :
  let g := set_CURRENT_OBS_MODE "Local"
             (set_CURRENT_REWARD_MODE "time-pressure" initial_globals) in
  (reward (to_dict two_enemies_step) g).1 = Ok 0.89%float ∧
  (observation np.cast_raises sample_grid g).1 = Ok (np.flatten sample_grid) ∧
  (observation_space g).1 = Ok global_observation_space.
Proof.
  cbv zeta.
  destruct (unknown_modes_fall_through np.cast_raises (to_dict two_enemies_step)
              sample_grid
              (set_CURRENT_OBS_MODE "Local"
                 (set_CURRENT_REWARD_MODE "time-pressure" initial_globals)))
    as [Hr Ho].
  rewrite Hr by discriminate. destruct Ho as [-> ->]; [discriminate|].
  split_and!; reflexivity.
Defined.

Lemma last_agent_pos_never_cleared_witness :
  let g := (reward_time_pressure (to_dict (quiet_step 42)) initial_globals).2 in
  LAST_AGENT_POS
    (run np.cast_raises
       [assign_CURRENT_REWARD_MODE "proximity";
        call_reward (to_dict (quiet_step 7));
        call_observation sample_grid;
        assign_CURRENT_REWARD_MODE "time_pressure"] g) = Some 42 ∧
  is_Some (LAST_AGENT_POS
    (run np.cast_raises [call_reward_time_pressure info_without_agent_pos] g)).
Proof.
  cbv zeta. split; [reflexivity|].
  destruct (last_agent_pos_never_cleared np.cast_raises) as (H & _ & _).
  apply H. by eexists.
Defined.

Lemma record_without_agent_pos_breaks_next_observation_witness :
  let g := set_CURRENT_OBS_MODE "local" initial_globals in
  (reward info_without_agent_pos g).1 = Ok 0.0%float ∧
  (observation np.cast_raises sample_grid (reward info_without_agent_pos g).2).1 =
    Raise (KeyError "agent_pos").
Proof.
  cbv zeta.
  destruct (record_without_agent_pos_breaks_next_observation np.cast_raises
              info_without_agent_pos sample_grid
              (set_CURRENT_OBS_MODE "local" initial_globals) eq_refl eq_refl)
    as [Hobs Hrew].
  split; [|exact Hobs].
  apply (Hrew eq_refl false false); reflexivity.
Defined.

Lemma observation_uses_latest_reward_info_witness :
  LAST_INFO
    (run np.cast_raises
       ([call_reward (to_dict (quiet_step 1)); call_observation sample_grid]
        ++ call_reward (to_dict (quiet_step 2))
        :: [call_observation sample_grid; assign_CURRENT_OBS_MODE "local";
            call_reward_time_pressure (to_dict (quiet_step 3))])
       initial_globals) = Some (to_dict (quiet_step 2)).
Proof.
  apply (observation_uses_latest_reward_info np.cast_raises
           [call_reward (to_dict (quiet_step 1)); call_observation sample_grid]
           [call_observation sample_grid; assign_CURRENT_OBS_MODE "local";
            call_reward_time_pressure (to_dict (quiet_step 3))]
           (to_dict (quiet_step 2)) initial_globals).
  reflexivity.
Defined.

Lemma legacy_observation_ignores_mode_witness :
  let lg := Legacy.mk_globals "local" "basic" in
  length (Legacy.observation sample_grid lg) = 300%nat ∧
  box_shape (Legacy.observation_space lg) = 77%nat.
Proof.
  cbv zeta.
  destruct (legacy_observation_ignores_mode np.cast_raises sample_grid
              (Legacy.mk_globals "local" "basic") initial_globals
              eq_refl sample_grid_wf) as (_ & Hlen & Hbox & _).
  split; [exact Hlen|by apply Hbox].
Defined.

Lemma functions_read_only_their_keys_witness :
  reward_basic flags_only_info = reward_basic (to_dict two_enemies_step) ∧
  reward_basic flags_only_info = Ok 1.0%float.
Proof.
  destruct (functions_read_only_their_keys np.cast_raises) as (_ & H & _).
  split; [by apply H|reflexivity].
Defined.
